(** * Persona session protocol of the image persona generator

    A shallow embedding of the two backend routes
    ([src/app/api/generate-persona/route.ts], [src/app/api/chat/route.ts])
    and of the two front-end components that drive them (the [Home] page
    and its [ChatBox]), followed by the properties of the persona session
    protocol that hold of them.

    Conventions of the embedding:
    - a JavaScript string is the list of its UTF-16 code units;
    - a value decoded from JSON is a [json] tree; [undefined] is [None];
    - an [async] function that awaits at most one outside party takes what
      that party does as an argument, and returns the requests it issued
      together with its result;
    - React state is a record; a handler reads the snapshot it closed over
      and queues updates on the store; a run of a handler ends with the
      render that follows its last update, effects included;
    - a value that goes from a route to the page, or from the page to a
      route, is written out as JSON on one side and decoded on the
      other. *)

From Stdlib Require Import List NArith Bool String Ascii DecimalString Lia.
Import ListNotations.

Local Open Scope N_scope.
Local Open Scope list_scope.

#[local] Set Warnings "-register-all".

(* ================================================================== *)
(** ** JavaScript strings *)
(* ================================================================== *)

Definition jsstring := list N.

Definition ch (a : ascii) : N := N_of_ascii a.
Arguments ch a%_char.

(** An ASCII literal as a JavaScript string. *)
Definition str (s : string) : jsstring := map N_of_ascii (list_ascii_of_string s).

(** The same, with every apostrophe of the literal read as a double
    quote (code unit 34): used to write JSON texts down. *)
Definition quoted (s : string) : jsstring :=
  map (fun c => if c =? ch "'" then 34 else c) (str s).

Fixpoint eqb (s t : jsstring) : bool :=
  match s, t with
  | [], [] => true
  | c :: s', d :: t' => (c =? d) && eqb s' t'
  | _, _ => false
  end.

(** Whether the code unit [c] occurs in [s]. *)
Definition occurs (c : N) (s : jsstring) : bool := existsb (N.eqb c) s.

(** [xs.join(sep)] on strings. *)
Fixpoint join (sep : jsstring) (xs : list jsstring) : jsstring :=
  match xs with
  | [] => []
  | [x] => x
  | x :: rest => x ++ sep ++ join sep rest
  end.

(** WhiteSpace and LineTerminator code units, the ones [trim] strips. *)
Definition is_space (c : N) : bool :=
  ((9 <=? c) && (c <=? 13)) || (c =? 32) || (c =? 160) || (c =? 5760)
  || ((8192 <=? c) && (c <=? 8202)) || (c =? 8232) || (c =? 8233)
  || (c =? 8239) || (c =? 8287) || (c =? 12288) || (c =? 65279).

Fixpoint trimStart (s : jsstring) : jsstring :=
  match s with
  | c :: rest => if is_space c then trimStart rest else s
  | [] => []
  end.

Definition trim (s : jsstring) : jsstring := rev (trimStart (rev (trimStart s))).

(** Decimal rendering of a non-negative integer (an HTTP status). *)
Definition decimal (n : N) : jsstring := str (NilZero.string_of_uint (N.to_uint n)).

(* ================================================================== *)
(** ** JSON values and [JSON.parse] *)
(* ================================================================== *)

(** A number keeps the text of its literal: its IEEE-754 value is a
    function of that text.  Object members are kept in insertion order
    (JavaScript lists integer-like keys first; no read depends on it). *)
Inductive json : Type :=
| JNull
| JBool (b : bool)
| JNumber (literal : jsstring)
| JString (s : jsstring)
| JArray (items : list json)
| JObject (members : list (jsstring * json)).

(** Defining a property on an object under construction: a repeated key
    keeps its place and takes the later value. *)
Fixpoint define (k : jsstring) (v : json) (ms : list (jsstring * json))
  : list (jsstring * json) :=
  match ms with
  | [] => [(k, v)]
  | (k', v') :: rest =>
      if eqb k k' then (k, v) :: rest else (k', v') :: define k v rest
  end.

Fixpoint lookup (k : jsstring) (ms : list (jsstring * json)) : option json :=
  match ms with
  | [] => None
  | (k', v) :: rest => if eqb k k' then Some v else lookup k rest
  end.

(** Property read [v.k] for a property name that no built-in prototype
    defines (every name this program reads is one): own members of an
    object, [undefined] on anything else.  Reading from [null] or
    [undefined] is the caller's business. *)
Definition get (v : json) (k : jsstring) : option json :=
  match v with
  | JObject ms => lookup k ms
  | _ => None
  end.

(** *** Lexical grammar *)

Inductive token : Type :=
| TLBrace | TRBrace | TLBracket | TRBracket | TColon | TComma
| TString (s : jsstring)
| TNumber (literal : jsstring)
| TWord (v : json).

(** Where the scanner stands inside a number literal: an optional
    minus sign; then a lone 0, or a non-zero digit and any digits; then
    optionally a dot and one or more digits; then optionally e or E, an
    optional sign and one or more digits. *)
Inductive numstate : Type :=
| NMinus | NZero | NInt | NDot | NFrac | NExp | NExpSign | NExpDigits.

Inductive lexstate : Type :=
| LStart
| LString (acc : jsstring)
| LEscape (acc : jsstring)
| LUnicode (acc : jsstring) (todo : nat) (v : N)
| LNumber (st : numstate) (acc : jsstring)
| LWord (more : jsstring) (v : json).

Definition is_digit (c : N) : bool := (ch "0" <=? c) && (c <=? ch "9").

Definition hex_digit (c : N) : option N :=
  if is_digit c then Some (c - ch "0")
  else if (ch "a" <=? c) && (c <=? ch "f") then Some (c - ch "a" + 10)
  else if (ch "A" <=? c) && (c <=? ch "F") then Some (c - ch "A" + 10)
  else None.

Definition num_accepting (n : numstate) : bool :=
  match n with
  | NZero | NInt | NFrac | NExpDigits => true
  | NMinus | NDot | NExp | NExpSign => false
  end.

Definition num_step (n : numstate) (c : N) : option numstate :=
  let exponent := (c =? ch "e") || (c =? ch "E") in
  match n with
  | NMinus => if c =? ch "0" then Some NZero
              else if is_digit c then Some NInt else None
  | NZero => if c =? ch "." then Some NDot
             else if exponent then Some NExp else None
  | NInt => if is_digit c then Some NInt
            else if c =? ch "." then Some NDot
            else if exponent then Some NExp else None
  | NDot => if is_digit c then Some NFrac else None
  | NFrac => if is_digit c then Some NFrac
             else if exponent then Some NExp else None
  | NExp => if (c =? ch "+") || (c =? ch "-") then Some NExpSign
            else if is_digit c then Some NExpDigits else None
  | NExpSign => if is_digit c then Some NExpDigits else None
  | NExpDigits => if is_digit c then Some NExpDigits else None
  end.

(** One code unit read between two tokens. *)
Definition step_start (c : N) : option (lexstate * list token) :=
  if (c =? 32) || (c =? 9) || (c =? 10) || (c =? 13) then Some (LStart, [])
  else if c =? ch "{" then Some (LStart, [TLBrace])
  else if c =? ch "}" then Some (LStart, [TRBrace])
  else if c =? ch "[" then Some (LStart, [TLBracket])
  else if c =? ch "]" then Some (LStart, [TRBracket])
  else if c =? ch ":" then Some (LStart, [TColon])
  else if c =? ch "," then Some (LStart, [TComma])
  else if c =? 34 then Some (LString [], [])
  else if c =? ch "-" then Some (LNumber NMinus [c], [])
  else if c =? ch "0" then Some (LNumber NZero [c], [])
  else if is_digit c then Some (LNumber NInt [c], [])
  else if c =? ch "t" then Some (LWord (str "rue") (JBool true), [])
  else if c =? ch "f" then Some (LWord (str "alse") (JBool false), [])
  else if c =? ch "n" then Some (LWord (str "ull") JNull, [])
  else None.

(** The character an escape sequence [\c] stands for. *)
Definition escape (c : N) : option N :=
  if c =? 34 then Some 34
  else if c =? 92 then Some 92
  else if c =? ch "/" then Some (ch "/")
  else if c =? ch "b" then Some 8
  else if c =? ch "f" then Some 12
  else if c =? ch "n" then Some 10
  else if c =? ch "r" then Some 13
  else if c =? ch "t" then Some 9
  else None.

(** Accumulators hold the code units read so far, last one first. *)
Definition lex_step (st : lexstate) (c : N) : option (lexstate * list token) :=
  match st with
  | LStart => step_start c
  | LString acc =>
      if c =? 34 then Some (LStart, [TString (rev acc)])
      else if c =? 92 then Some (LEscape acc, [])
      else if c <? 32 then None
      else Some (LString (c :: acc), [])
  | LEscape acc =>
      if c =? ch "u" then Some (LUnicode acc 4 0, [])
      else match escape c with
           | Some e => Some (LString (e :: acc), [])
           | None => None
           end
  | LUnicode acc todo v =>
      match hex_digit c, todo with
      | Some d, 1%nat => Some (LString (16 * v + d :: acc), [])
      | Some d, S todo' => Some (LUnicode acc todo' (16 * v + d), [])
      | _, _ => None
      end
  | LNumber n acc =>
      match num_step n c with
      | Some n' => Some (LNumber n' (c :: acc), [])
      | None =>
          if num_accepting n then
            match step_start c with
            | Some (st', toks) => Some (st', TNumber (rev acc) :: toks)
            | None => None
            end
          else None
      end
  | LWord more v =>
      match more with
      | x :: [] => if c =? x then Some (LStart, [TWord v]) else None
      | x :: more' => if c =? x then Some (LWord more' v, []) else None
      | [] => None
      end
  end.

Definition lex_finish (st : lexstate) : option (list token) :=
  match st with
  | LStart => Some []
  | LNumber n acc => if num_accepting n then Some [TNumber (rev acc)] else None
  | _ => None
  end.

Fixpoint lex (st : lexstate) (s : jsstring) : option (list token) :=
  match s with
  | [] => lex_finish st
  | c :: rest =>
      match lex_step st c with
      | Some (st', toks) => option_map (app toks) (lex st' rest)
      | None => None
      end
  end.

(** *** Syntactic grammar

    A value is built bottom-up over the token list; the stack holds the
    arrays and objects that are still open, innermost first. *)

Inductive frame : Type :=
| InArray (done : list json)
| InObject (done : list (jsstring * json)) (key : jsstring).

Inductive pstate : Type :=
| PValue (stack : list frame)
| PArrayOpen (stack : list frame)
| PArrayNext (done : list json) (stack : list frame)
| PObjectOpen (stack : list frame)
| PKey (done : list (jsstring * json)) (stack : list frame)
| PColon (done : list (jsstring * json)) (key : jsstring) (stack : list frame)
| PObjectNext (done : list (jsstring * json)) (stack : list frame)
| PDone (v : json).

(** A finished value goes to the innermost open container.  Array
    elements are collected last one first. *)
Definition deliver (v : json) (stack : list frame) : pstate :=
  match stack with
  | [] => PDone v
  | InArray done :: up => PArrayNext (v :: done) up
  | InObject done key :: up => PObjectNext (define key v done) up
  end.

Definition value_token (stack : list frame) (t : token) : option pstate :=
  match t with
  | TLBracket => Some (PArrayOpen stack)
  | TLBrace => Some (PObjectOpen stack)
  | TString s => Some (deliver (JString s) stack)
  | TNumber n => Some (deliver (JNumber n) stack)
  | TWord v => Some (deliver v stack)
  | TRBrace | TRBracket | TColon | TComma => None
  end.

Definition parse_step (st : pstate) (t : token) : option pstate :=
  match st, t with
  | PValue stack, _ => value_token stack t
  | PArrayOpen stack, TRBracket => Some (deliver (JArray []) stack)
  | PArrayOpen stack, _ => value_token (InArray [] :: stack) t
  | PArrayNext done stack, TComma => Some (PValue (InArray done :: stack))
  | PArrayNext done stack, TRBracket => Some (deliver (JArray (rev done)) stack)
  | PObjectOpen stack, TRBrace => Some (deliver (JObject []) stack)
  | PObjectOpen stack, TString k => Some (PColon [] k stack)
  | PKey done stack, TString k => Some (PColon done k stack)
  | PColon done k stack, TColon => Some (PValue (InObject done k :: stack))
  | PObjectNext done stack, TComma => Some (PKey done stack)
  | PObjectNext done stack, TRBrace => Some (deliver (JObject done) stack)
  | _, _ => None
  end.

Fixpoint parse (st : pstate) (ts : list token) : option json :=
  match ts with
  | [] => match st with PDone v => Some v | _ => None end
  | t :: rest =>
      match parse_step st t with
      | Some st' => parse st' rest
      | None => None
      end
  end.

(** [JSON.parse(text)]; [None] is the SyntaxError it throws. *)
Definition JSON_parse (text : jsstring) : option json :=
  match lex LStart text with
  | Some ts => parse (PValue []) ts
  | None => None
  end.

(* ================================================================== *)
(** ** The regular expression [/\{[\s\S]*\}/] *)
(* ================================================================== *)

(** The suffix of [s] that starts at the first [c]. *)
Fixpoint from_first (c : N) (s : jsstring) : option jsstring :=
  match s with
  | [] => None
  | x :: rest => if x =? c then Some s else from_first c rest
  end.

(** The prefix of [s] that ends at the last [c]. *)
Fixpoint through_last (c : N) (s : jsstring) : option jsstring :=
  match s with
  | [] => None
  | x :: rest =>
      match through_last c rest with
      | Some t => Some (x :: t)
      | None => if x =? c then Some [x] else None
      end
  end.

(** [text.match(/\{[\s\S]*\}/)], reduced to its element 0 when it is not
    [null]: the leftmost opening brace, then as much as possible up to a
    closing brace. *)
Definition match_braces (text : jsstring) : option jsstring :=
  match from_first (ch "{") text with
  | Some s => through_last (ch "}") s
  | None => None
  end.

(* ================================================================== *)
(** ** Coercions of decoded values *)
(* ================================================================== *)

(** All of the options, or none. *)
Fixpoint all {A} (xs : list (option A)) : option (list A) :=
  match xs with
  | [] => Some []
  | Some x :: rest => option_map (cons x) (all rest)
  | None :: _ => None
  end.

(** The three conversions of a Number that need its IEEE-754 value;
    they are taken as given, and nothing below depends on what they
    are.  [JSON.stringify] writes a finite value as [String] prints it
    and any other as [null]. *)
Class NumberOps : Type := {
  Number_toString : jsstring -> jsstring;   (* literal |-> String(value) *)
  Number_toBoolean : jsstring -> bool;      (* literal |-> Boolean(value) *)
  Number_toJSON : jsstring -> option jsstring
    (* literal |-> the literal [JSON.stringify(value)] writes; [None] for [null] *)
}.

Section Coercions.
Context {ops : NumberOps}.

(** [String(v)], as a template literal applies it; [None] is the
    TypeError of an object that cannot be made a primitive.  A decoded
    object renders through [Object.prototype.toString] unless it has a
    member named [toString], which no decoded value can make callable;
    an array renders through [join]. *)
Fixpoint ToString (v : json) : option jsstring :=
  match v with
  | JNull => Some (str "null")
  | JBool true => Some (str "true")
  | JBool false => Some (str "false")
  | JNumber n => Some (Number_toString n)
  | JString s => Some s
  | JArray items =>
      option_map (join (str ","))
        (all (map (fun x => match x with JNull => Some [] | _ => ToString x end)
                  items))
  | JObject ms =>
      match lookup (str "toString") ms with
      | Some _ => None
      | None => Some (str "[object Object]")
      end
  end.

(** An element as [Array.prototype.join] renders it. *)
Definition join_element (v : json) : option jsstring :=
  match v with JNull => Some [] | _ => ToString v end.

(** [items.join(sep)] on decoded values. *)
Definition Array_join (sep : jsstring) (items : list json) : option jsstring :=
  option_map (join sep) (all (map join_element items)).

(** A template-literal hole filled with the result of a property read. *)
Definition interpolate (v : option json) : option jsstring :=
  match v with
  | None => Some (str "undefined")
  | Some x => ToString x
  end.

(** [Boolean(v)]: what [!v] negates. *)
Definition truthy (v : json) : bool :=
  match v with
  | JNull => false
  | JBool b => b
  | JNumber n => Number_toBoolean n
  | JString s => negb (eqb s [])
  | JArray _ | JObject _ => true
  end.

(** A decoded value after [JSON.stringify] on one side of a request and
    [JSON.parse] on the other: strings, booleans, [null] and the shape
    of arrays and objects arrive as they were; a number arrives as the
    value of the literal that was written for it, and as [null] when it
    was not finite. *)
Fixpoint transmitted (v : json) : json :=
  match v with
  | JNumber n =>
      match Number_toJSON n with
      | Some literal => JNumber literal
      | None => JNull
      end
  | JArray items => JArray (map transmitted items)
  | JObject ms => JObject (map (fun '(k, x) => (k, transmitted x)) ms)
  | JNull | JBool _ | JString _ => v
  end.
End Coercions.

(** [Boolean(s)] of a string. *)
Definition nonempty (s : jsstring) : bool :=
  match s with [] => false | _ :: _ => true end.

(** [Boolean(v)] of a value that is a string, [null] or [undefined]. *)
Definition present (v : option jsstring) : bool :=
  match v with Some s => nonempty s | None => false end.

(* ================================================================== *)
(** ** Exceptions, state and issued requests *)
(* ================================================================== *)

Inductive exn : Type :=
| Error (message : jsstring)   (* [throw new Error(message)] *)
| TypeError                    (* a read through [undefined], a call of a non-function *)
| SyntaxError                  (* [JSON.parse], [response.json()] *)
| Rejected.                    (* a [fetch] that did not get a response *)

Inductive outcome (A : Type) : Type :=
| Returned (a : A)
| Thrown (e : exn).
Arguments Returned {A} a.
Arguments Thrown {A} e.

(** A computation over a store [S] that issues events [E] (requests,
    notifications) and returns or throws.  What was stored and issued
    before a throw stays. *)
Definition M (S E A : Type) : Type := S -> S * list E * outcome A.

Section Monad.
Context {S E : Type}.

Definition ret {A} (a : A) : M S E A := fun s => (s, [], Returned a).

Definition throw {A} (e : exn) : M S E A := fun s => (s, [], Thrown e).

Definition emit (e : E) : M S E unit := fun s => (s, [e], Returned tt).

Definition modify (f : S -> S) : M S E unit := fun s => (f s, [], Returned tt).

Definition bind {A B} (m : M S E A) (k : A -> M S E B) : M S E B :=
  fun s =>
    match m s with
    | (s1, t1, Returned a) =>
        let '(s2, t2, r) := k a s1 in (s2, t1 ++ t2, r)
    | (s1, t1, Thrown e) => (s1, t1, Thrown e)
    end.

(** [try { body } catch (error) { handler }] *)
Definition try_catch {A} (body : M S E A) (handler : exn -> M S E A) : M S E A :=
  fun s =>
    match body s with
    | (s1, t1, Returned a) => (s1, t1, Returned a)
    | (s1, t1, Thrown e) =>
        let '(s2, t2, r) := handler e s1 in (s2, t1 ++ t2, r)
    end.

(** [try { body } finally { final }], for a [final] that completes
    normally. *)
Definition try_finally {A} (body : M S E A) (final : M S E unit) : M S E A :=
  fun s =>
    let '(s1, t1, r) := body s in
    let '(s2, t2, r') := final s1 in
    (s2, t1 ++ t2, match r' with Returned _ => r | Thrown e => Thrown e end).
End Monad.

Notation "x <- m ;; k" := (bind m (fun x => k))
  (at level 61, m at next level, right associativity).
Notation "m ;; k" := (bind m (fun _ => k))
  (at level 61, right associativity).

(** The string a conversion yields, or the TypeError it throws. *)
Definition filled {S E} (v : option jsstring) : M S E jsstring :=
  match v with
  | Some s => ret s
  | None => throw TypeError
  end.

(** A route handler: a [try] block whose [catch] turns any exception
    into a response.  It has no store. *)
Definition respond {E R} (body : M unit E R) (handler : exn -> R) : list E * R :=
  let '(_, issued, r) := body tt in
  (issued, match r with Returned x => x | Thrown e => handler e end).

(** [response.ok] *)
Definition ok (status : N) : bool := (200 <=? status) && (status <=? 299).

(* ================================================================== *)
(** ** The completion provider *)
(* ================================================================== *)

(** What both routes exchange with
    [https://openrouter.ai/api/v1/chat/completions].  Of a request the
    model name, the message list and the length limit are kept (the
    headers and the temperature 0.8 are not); of a response, the status
    and the envelope fields the routes read, the content of a choice
    being a string, [null] or absent as the provider documents it. *)
Module OpenRouter.

Module Request.
Inductive Role : Type := system | user | assistant.

Inductive Part : Type :=
| text (s : jsstring)
| image_url (url : jsstring).

Inductive Content : Type :=
| Text (s : jsstring)
| Parts (ps : list Part).

Record Message : Type := { role : Role; content : Content }.

Record Body : Type := {
  model : jsstring;
  messages : list Message;
  max_tokens : N
}.
End Request.

Module Reply.
Record Message : Type := { content : option jsstring }.
Record Choice : Type := { message : option Message }.
Record Completion : Type := { choices : option (list Choice) }.
End Reply.

(** What the provider does with one request. *)
Inductive upstream : Type :=
| Unreachable                                        (* [fetch] rejects *)
| Replies (status : N) (body : option Reply.Completion).
                                  (* [None]: the body is not JSON *)

(** [completion.choices[0]?.message?.content], given [completion.choices] *)
Definition first_content (choices : list Reply.Choice) : option jsstring :=
  match choices with
  | [] => None
  | c :: _ =>
      match Reply.message c with
      | None => None
      | Some m => Reply.content m
      end
  end.

(** The [fetch] of the provider and the reading of its answer, as both
    routes do it: the text of the first choice, or an exception. *)
Definition complete (req : Request.Body) (provider : upstream)
  : M unit Request.Body jsstring :=
  emit req ;;
  match provider with
  | Unreachable => throw Rejected
  | Replies status body =>
      if negb (ok status) then
        throw (Error (str "OpenAI API error: " ++ decimal status))
      else
        completion <- match body with
                      | Some c => ret c
                      | None => throw SyntaxError
                      end ;;
        choices <- match Reply.choices completion with
                   | Some cs => ret cs
                   | None => throw TypeError
                   end ;;
        match first_content choices with
        | Some responseContent =>
            if negb (nonempty responseContent)
            then throw (Error (str "No response from AI"))
            else ret responseContent
        | None => throw (Error (str "No response from AI"))
        end
  end.

End OpenRouter.

(* ================================================================== *)
(** ** Route [/api/generate-persona] *)
(* ================================================================== *)

(** An uploaded file: its MIME type and the base64 text of its bytes. *)
Record File : Type := { type : jsstring; base64 : jsstring }.

Module GeneratePersona.
Import OpenRouter.

(** The three [NextResponse.json] calls of the handler. *)
Inductive Response : Type :=
| Success (persona : json)                (* { success: true, persona } *)
| BadRequest (error : jsstring)           (* { error }, status 400 *)
| ServerError (error : jsstring).         (* { error }, status 500 *)

Definition status (r : Response) : N :=
  match r with
  | Success _ => 200
  | BadRequest _ => 400
  | ServerError _ => 500
  end.

Definition system_prompt : jsstring :=
  str "You are a creative AI persona generator. When given an image, you must:" ++ [10; 10]
  ++ str "1. First, carefully analyze and identify the main object or subject in the image" ++ [10]
  ++ str "2. Then create a detailed, imaginative persona for it" ++ [10; 10]
  ++ str "Your response should be a JSON object with the following structure:" ++ [10]
  ++ str "{" ++ [10]
  ++ quoted "  'name': 'A creative name for the object/person'," ++ [10]
  ++ quoted "  'description': 'A brief description of what the object is and its current state based on the image'," ++ [10]
  ++ quoted "  'personality': 'Detailed personality traits, quirks, and characteristics'," ++ [10]
  ++ quoted "  'background': 'An imaginative backstory explaining where it came from, its experiences, and how it got to where it is now'," ++ [10]
  ++ quoted "  'traits': ['trait1', 'trait2', 'trait3', 'trait4', 'trait5']" ++ [10]
  ++ str "}" ++ [10; 10]
  ++ str "Be creative, whimsical, and engaging. Make the persona feel alive and unique. For inanimate objects, give them human-like qualities and emotions. For people or animals, create an imaginative backstory that goes beyond what" ++ [39] ++ str "s visible in the image." ++ [10; 10]
  ++ str "IMPORTANT: You must respond with valid JSON only, no additional text.".

Definition request (imageDataUrl : jsstring) : Request.Body :=
  {| Request.model := str "qwen/qwen2.5-vl-72b-instruct:free";
     Request.messages :=
       [ {| Request.role := Request.system;
            Request.content := Request.Text system_prompt |};
         {| Request.role := Request.user;
            Request.content := Request.Parts
              [ Request.text (str "Please analyze this image and create a detailed persona for the main object or subject in it.");
                Request.image_url imageDataUrl ] |} ];
     Request.max_tokens := 1000 |}.

(** The template literal [imageDataUrl]. *)
Definition data_url (file : File) : jsstring :=
  str "data:" ++ type file ++ str ";base64," ++ base64 file.

(** [POST], in the revision that reads its key from the environment
    (with a key present it is the revision that has the key built in):
    [imageFile] is [formData.get('image')], [API_KEY] is
    [process.env.API_KEY]. *)
Definition POST (imageFile : option File) (API_KEY : option jsstring)
    (provider : upstream) : list Request.Body * Response :=
  respond
    (match imageFile with
     | None => ret (BadRequest (str "No image file provided"))
     | Some file =>
         let imageDataUrl := data_url file in
         (if negb (present API_KEY)
          then throw (Error (str "Missing API_KEY in environment variables"))
          else ret tt) ;;
         responseContent <- complete (request imageDataUrl) provider ;;
         jsonMatch <- match match_braces responseContent with
                      | Some m => ret m
                      | None => throw (Error (str "Invalid response format from AI"))
                      end ;;
         persona <- match JSON_parse jsonMatch with
                    | Some v => ret v
                    | None => throw SyntaxError
                    end ;;
         ret (Success persona)
     end)
    (fun error => ServerError (str "Failed to generate persona")).

End GeneratePersona.

(* ================================================================== *)
(** ** Route [/api/chat] *)
(* ================================================================== *)

Module Chat.
Import OpenRouter.

Inductive TurnRole : Type := user | assistant.

(** One entry of the conversation history. *)
Record ChatMessage : Type := { role : TurnRole; content : jsstring }.

(** The request body.  The persona is whatever value the page holds;
    [chatHistory] may be left out. *)
Record ChatRequest : Type := {
  message : jsstring;
  persona : json;
  chatHistory : option (list ChatMessage)
}.

Inductive Response : Type :=
| Success (response : jsstring)           (* { success: true, response } *)
| BadRequest (error : jsstring)           (* { error }, status 400 *)
| ServerError (error : jsstring).         (* { error }, status 500 *)

Definition status (r : Response) : N :=
  match r with
  | Success _ => 200
  | BadRequest _ => 400
  | ServerError _ => 500
  end.

(** A history role as the role of an outgoing message. *)
Definition as_role (r : TurnRole) : Request.Role :=
  match r with
  | user => Request.user
  | assistant => Request.assistant
  end.

(** The fixed template, around its five holes. *)
Definition template (name description personality background traits : jsstring)
  : jsstring :=
  str "You are " ++ name ++ str ". " ++ description ++ [10; 10]
  ++ str "Your personality: " ++ personality ++ [10; 10]
  ++ str "Your background: " ++ background ++ [10; 10]
  ++ str "Your key traits: " ++ traits ++ [10; 10]
  ++ str "IMPORTANT: You must stay in character as " ++ name
  ++ str " at all times. Respond as if you are this person/object with the personality, background, and traits described above. Be creative, engaging, and consistent with your character. Use the personality traits and background to inform your responses."
  ++ [10; 10]
  ++ str "Keep your responses conversational and relatively brief (2-4 sentences typically), but feel free to be more detailed when the situation calls for it. Show emotion and personality in your responses.".

(** The message list: system prompt, history, new message. *)
Definition assemble (systemPrompt : jsstring) (chatHistory : list ChatMessage)
    (message : jsstring) : list Request.Message :=
  [ {| Request.role := Request.system;
       Request.content := Request.Text systemPrompt |} ]
  ++ map (fun msg => {| Request.role := as_role (role msg);
                        Request.content := Request.Text (content msg) |})
         chatHistory
  ++ [ {| Request.role := Request.user;
          Request.content := Request.Text message |} ].

Section WithNumbers.
Context {ops : NumberOps}.

(** The template literal [systemPrompt].  Its holes are filled left
    to right; filling one throws when the value cannot be made a string,
    and [persona.traits.join(', ')] throws unless [persona.traits] is an
    array. *)
Definition systemPrompt (persona : json) : M unit Request.Body jsstring :=
  name <- filled (interpolate (get persona (str "name"))) ;;
  description <- filled (interpolate (get persona (str "description"))) ;;
  personality <- filled (interpolate (get persona (str "personality"))) ;;
  background <- filled (interpolate (get persona (str "background"))) ;;
  traits <- match get persona (str "traits") with
            | Some (JArray traits) => filled (Array_join (str ", ") traits)
            | _ => throw TypeError
            end ;;
  ret (template name description personality background traits).

(** From [const systemPrompt] to [const messages]. *)
Definition build_messages (persona : json) (chatHistory : list ChatMessage)
    (message : jsstring) : M unit Request.Body (list Request.Message) :=
  systemPrompt <- systemPrompt persona ;;
  ret (assemble systemPrompt chatHistory message).

(** The body [await request.json()] gives the route for the body the
    page wrote out: the strings of the message and of the history
    arrive as they were, the persona as any decoded value does. *)
Definition request_json (body : ChatRequest) : ChatRequest :=
  {| message := message body;
     persona := transmitted (persona body);
     chatHistory := chatHistory body |}.

Definition POST (body : ChatRequest) (provider : upstream)
  : list Request.Body * Response :=
  respond
    (let message := message body in
     let persona := persona body in
     let chatHistory := match chatHistory body with
                        | Some h => h
                        | None => []
                        end in
     if negb (nonempty message) || negb (truthy persona) then
       ret (BadRequest (str "Message and persona are required"))
     else
       messages <- build_messages persona chatHistory message ;;
       responseContent <-
         complete {| Request.model := str "z-ai/glm-4.5-air:free";
                     Request.messages := messages;
                     Request.max_tokens := 500 |} provider ;;
       ret (Success responseContent))
    (fun error => ServerError (str "Failed to generate response")).
End WithNumbers.

End Chat.

(* ================================================================== *)
(** ** The page: [Home] and its [ChatBox] *)
(* ================================================================== *)

Module Page.

(** A bubble of the chat box (its id and timestamp are left out). *)
Inductive Sender : Type := user | persona_sender.
Record Bubble : Type := { text : jsstring; sender : Sender }.

(** The React state of [Home] followed by that of [ChatBox], which is
    taken to be mounted. *)
Record State : Type := {
  selectedImage : option jsstring;
  persona : option json;
  isLoading : bool;
  isChatLoading : bool;
  chatHistory : list Chat.ChatMessage;
  messages : list Bubble;
  inputMessage : jsstring
}.

(** What a handler lets out of the page, and what the routes it
    reaches let out in turn; and the one thing it leaves for React to
    do: a call of [setChatHistory] makes a new array, which the effect
    of [ChatBox] on [chatHistory] answers after the render. *)
Inductive event : Type :=
| fetch_generate_persona (image : File)             (* POST /api/generate-persona *)
| fetch_chat (body : Chat.ChatRequest)              (* POST /api/chat *)
| fetch_provider (req : OpenRouter.Request.Body)    (* issued by a route *)
| toast_success (text : jsstring)
| toast_error (text : jsstring)
| chatHistory_set.                                  (* [setChatHistory] was called *)

(** What lies outside the page while one handler runs. *)
Record world : Type := {
  picked : option File;       (* the file behind the selected data URL, if it loads *)
  online : bool;              (* the browser reaches the routes *)
  API_KEY : option jsstring;  (* the server's environment *)
  provider : OpenRouter.upstream
}.

Definition setSelectedImage (v : option jsstring) : M State event unit :=
  modify (fun s => {| selectedImage := v; persona := persona s;
                      isLoading := isLoading s; isChatLoading := isChatLoading s;
                      chatHistory := chatHistory s; messages := messages s;
                      inputMessage := inputMessage s |}).

Definition setPersona (v : option json) : M State event unit :=
  modify (fun s => {| selectedImage := selectedImage s; persona := v;
                      isLoading := isLoading s; isChatLoading := isChatLoading s;
                      chatHistory := chatHistory s; messages := messages s;
                      inputMessage := inputMessage s |}).

Definition setIsLoading (v : bool) : M State event unit :=
  modify (fun s => {| selectedImage := selectedImage s; persona := persona s;
                      isLoading := v; isChatLoading := isChatLoading s;
                      chatHistory := chatHistory s; messages := messages s;
                      inputMessage := inputMessage s |}).

Definition setIsChatLoading (v : bool) : M State event unit :=
  modify (fun s => {| selectedImage := selectedImage s; persona := persona s;
                      isLoading := isLoading s; isChatLoading := v;
                      chatHistory := chatHistory s; messages := messages s;
                      inputMessage := inputMessage s |}).

(** [setChatHistory(prev => f(prev))]; [setChatHistory(v)] is the
    constant update. *)
Definition setChatHistory (f : list Chat.ChatMessage -> list Chat.ChatMessage)
  : M State event unit :=
  modify (fun s => {| selectedImage := selectedImage s; persona := persona s;
                      isLoading := isLoading s; isChatLoading := isChatLoading s;
                      chatHistory := f (chatHistory s); messages := messages s;
                      inputMessage := inputMessage s |}) ;;
  emit chatHistory_set.

Definition setMessages (f : list Bubble -> list Bubble) : M State event unit :=
  modify (fun s => {| selectedImage := selectedImage s; persona := persona s;
                      isLoading := isLoading s; isChatLoading := isChatLoading s;
                      chatHistory := chatHistory s; messages := f (messages s);
                      inputMessage := inputMessage s |}).

Definition setInputMessage (v : jsstring) : M State event unit :=
  modify (fun s => {| selectedImage := selectedImage s; persona := persona s;
                      isLoading := isLoading s; isChatLoading := isChatLoading s;
                      chatHistory := chatHistory s; messages := messages s;
                      inputMessage := v |}).

(** Issuing a list of events in order. *)
Fixpoint emit_all (es : list event) : M State event unit :=
  match es with
  | [] => ret tt
  | e :: rest => emit e ;; emit_all rest
  end.

(** [!persona] negates this. *)
Definition has_persona {ops : NumberOps} (s : State) : bool :=
  match persona s with
  | Some p => truthy p
  | None => false
  end.

(** The bubble the chat box draws for an entry of the history. *)
Definition bubble_of (m : Chat.ChatMessage) : Bubble :=
  {| text := Chat.content m;
     sender := match Chat.role m with
               | Chat.user => user
               | Chat.assistant => persona_sender
               end |}.

(** The effect of [ChatBox] on [chatHistory]: it mirrors the history
    into the bubbles. *)
Definition sync_messages : M State event unit :=
  fun s => setMessages (fun _ => map bubble_of (chatHistory s)) s.

Definition sets_log (e : event) : bool :=
  match e with chatHistory_set => true | _ => false end.

(** The state once React has rendered what a handler left.  The
    updates made after the last [await] of [Home], those of the
    [catch] of [ChatBox] included, are rendered together; when the
    history was set, the effect then runs on the history the handler
    ended with and replaces the bubbles, whatever was written to them
    before. *)
Definition settle (s : State) (issued : list event) : State :=
  if existsb sets_log issued then fst (fst (sync_messages s)) else s.

(** A handler run from a render of the current state, up to the render
    that follows its last update: the state it closed over is the one
    it starts from.  That the render which made the handler went
    through is taken for granted here; [Home.render] says of which
    states it does. *)
Definition run {A} (handler : State -> M State event A) (s : State)
  : State * list event * outcome A :=
  let '(s', issued, r) := handler s s in
  (settle s' issued, issued, r).

Definition apology : jsstring :=
  str "I" ++ [39] ++ str "m sorry, I" ++ [39]
  ++ str "m having trouble responding right now. Please try again.".

End Page.

Module Home.
Import Page.

Section WithNumbers.
Context {ops : NumberOps}.

(** [await fetch('/api/generate-persona', ...)] and, for the response,
    [await apiResponse.json()]: the request leaves; when the route is
    reached it runs, and what it answered comes back written out by
    [NextResponse.json] and decoded again by the page. *)
Definition post_generate_persona (image : File) (w : world)
  : M State event GeneratePersona.Response :=
  emit (fetch_generate_persona image) ;;
  if online w then
    let '(issued, response) :=
      GeneratePersona.POST (Some image) (API_KEY w) (provider w) in
    emit_all (map fetch_provider issued) ;;
    ret (match response with
         | GeneratePersona.Success persona =>
             GeneratePersona.Success (transmitted persona)
         | _ => response
         end)
  else throw Rejected.

(** [handleImageUpload], for the file of the change event and, when it
    is an image, the data URL the reader hands to [onload]. *)
Definition handleImageUpload (file : option File) (dataUrl : jsstring)
  : M State event unit :=
  match file with
  | None => ret tt
  | Some f =>
      if eqb (firstn 6 (type f)) (str "image/") then
        setSelectedImage (Some dataUrl) ;;
        setPersona None ;;
        setChatHistory (fun _ => [])
      else emit (toast_error (str "Please select a valid image file"))
  end.

(** [generatePersona], closed over the state [snap] of its render.
    A response that is [ok] is the route's success response, and
    [result.persona] its payload. *)
Definition generatePersona (w : world) (snap : State) : M State event unit :=
  if negb (present (selectedImage snap)) then
    emit (toast_error (str "Please upload an image first"))
  else
    setIsLoading true ;;
    try_finally
      (try_catch
         (blob <- match picked w with
                  | Some b => ret b
                  | None => throw Rejected
                  end ;;
          apiResponse <- post_generate_persona blob w ;;
          match apiResponse with
          | GeneratePersona.Success persona =>
              setPersona (Some persona) ;;
              setChatHistory (fun _ => []) ;;
              emit (toast_success (str "Persona generated successfully!"))
          | _ => throw (Error (str "Failed to generate persona"))
          end)
         (fun error =>
            emit (toast_error (str "Failed to generate persona. Please try again."))))
      (setIsLoading false).

(** [await fetch('/api/chat', ...)]: the body leaves written out by
    [JSON.stringify], and the route, when it is reached, runs on what
    [request.json()] decodes. *)
Definition post_chat (body : Chat.ChatRequest) (w : world)
  : M State event Chat.Response :=
  emit (fetch_chat body) ;;
  if online w then
    let '(issued, response) := Chat.POST (Chat.request_json body) (provider w) in
    emit_all (map fetch_provider issued) ;;
    ret response
  else throw Rejected.

(** [handleSendMessage], closed over the state [snap] of its render.
    A response that is [ok] is the route's success response, and
    [result.response] its payload. *)
Definition handleSendMessage (w : world) (message : jsstring) (snap : State)
  : M State event unit :=
  match persona snap with
  | None => ret tt
  | Some persona =>
      if negb (truthy persona) then ret tt
      else
        setIsChatLoading true ;;
        try_finally
          (try_catch
             (let nextHistory :=
                chatHistory snap
                ++ [ {| Chat.role := Chat.user; Chat.content := message |} ] in
              setChatHistory (fun _ => nextHistory) ;;
              response <-
                post_chat {| Chat.message := message;
                             Chat.persona := persona;
                             Chat.chatHistory := Some nextHistory |} w ;;
              match response with
              | Chat.Success text =>
                  setChatHistory (fun prev =>
                    prev ++ [ {| Chat.role := Chat.assistant;
                                 Chat.content := text |} ])
              | _ => throw (Error (str "Failed to get response"))
              end)
             (fun error =>
                setChatHistory (fun prev =>
                  prev ++ [ {| Chat.role := Chat.assistant;
                               Chat.content := apology |} ]) ;;
                throw error))
          (setIsChatLoading false)
  end.

(** What the render of [Home] evaluates of the persona before it hands
    anything to React: with a truthy persona the card is built, and
    building it calls [persona.traits.map], which throws unless
    [persona.traits] is an array. *)
Definition render (s : State) : outcome unit :=
  match persona s with
  | None => Returned tt
  | Some persona =>
      if truthy persona then
        match get persona (str "traits") with
        | Some (JArray traits) => Returned tt
        | _ => Thrown TypeError
        end
      else Returned tt
  end.
End WithNumbers.

End Home.

Module ChatBox.
Import Page.

Section WithNumbers.
Context {ops : NumberOps}.

(** [handleSendMessage]; the props [persona], [isLoading] and
    [onSendMessage] are [Home]'s [persona], [isChatLoading] and
    [handleSendMessage] of the same render. *)
Definition handleSendMessage (w : world) (snap : State) : M State event unit :=
  if negb (nonempty (trim (inputMessage snap)))
     || negb (has_persona snap) || isChatLoading snap
  then ret tt
  else
    let messageToSend := inputMessage snap in
    setInputMessage [] ;;
    try_catch
      (Home.handleSendMessage w messageToSend snap)
      (fun error =>
         setMessages (fun prev =>
           prev ++ [ {| text := apology; sender := persona_sender |} ])).
End WithNumbers.

End ChatBox.


(* ================================================================== *)
(** ** The session protocol, in terms of the page *)
(* ================================================================== *)

(** The record the code calls [PersonaResult] (or [PersonaData]). *)
Record PersonaResult : Type := {
  name : jsstring;
  description : jsstring;
  personality : jsstring;
  background : jsstring;
  traits : list jsstring
}.

(** A decoded value that has the five fields of [p], with their types
    (and possibly more members). *)
Definition holds (v : json) (p : PersonaResult) : Prop :=
  get v (str "name") = Some (JString (name p))
  /\ get v (str "description") = Some (JString (description p))
  /\ get v (str "personality") = Some (JString (personality p))
  /\ get v (str "background") = Some (JString (background p))
  /\ get v (str "traits") = Some (JArray (map JString (traits p))).

Definition to_json (p : PersonaResult) : json :=
  JObject [ (str "name", JString (name p));
            (str "description", JString (description p));
            (str "personality", JString (personality p));
            (str "background", JString (background p));
            (str "traits", JArray (map JString (traits p))) ].

Module Session.
Import Page.

(** [createPersona]: one run of [generatePersona]. *)
Definition createPersona {ops : NumberOps} (w : world) (s : State)
  : State * list event * outcome unit :=
  run (Home.generatePersona w) s.

(** [generatePersona] reports its result by a notification only. *)
Definition is_success (e : event) : bool :=
  match e with toast_success _ => true | _ => false end.

Definition succeeded (issued : list event) : bool := existsb is_success issued.

(** The requests that reached the completion provider. *)
Definition to_provider (issued : list event) : list OpenRouter.Request.Body :=
  flat_map (fun e => match e with fetch_provider r => [r] | _ => [] end) issued.

(** The text in the envelope of a response, whatever its status. *)
Definition response_text (u : OpenRouter.upstream) : option jsstring :=
  match u with
  | OpenRouter.Replies _ (Some c) =>
      match OpenRouter.Reply.choices c with
      | Some cs => OpenRouter.first_content cs
      | None => None
      end
  | _ => None
  end.

(** A provider call that fails: network error, non-success status, or
    empty or missing response text. *)
Definition failed (u : OpenRouter.upstream) : bool :=
  match u with
  | OpenRouter.Unreachable => true
  | OpenRouter.Replies status _ => negb (ok status) || negb (present (response_text u))
  end.

(** A provider that answers [text] with status 200. *)
Definition says (text : jsstring) : OpenRouter.upstream :=
  OpenRouter.Replies 200
    (Some {| OpenRouter.Reply.choices :=
               Some [ {| OpenRouter.Reply.message :=
                           Some {| OpenRouter.Reply.content := Some text |} |} ] |}).

Definition user_turn (text : jsstring) : Chat.ChatMessage :=
  {| Chat.role := Chat.user; Chat.content := text |}.

Definition assistant_turn (text : jsstring) : Chat.ChatMessage :=
  {| Chat.role := Chat.assistant; Chat.content := text |}.

(** The log after the exchanges of [texts] and [replies], pairwise. *)
Definition exchanges (texts replies : list jsstring) : list Chat.ChatMessage :=
  flat_map (fun '(text, reply) => [user_turn text; assistant_turn reply])
           (combine texts replies).

(** The request body of a turn: the new text, the persona, and the log
    with the new user turn already on it. *)
Definition turn_body (s : State) (p : json) (userText : jsstring)
  : Chat.ChatRequest :=
  {| Chat.message := userText;
     Chat.persona := p;
     Chat.chatHistory := Some (chatHistory s ++ [user_turn userText]) |}.

(** The store a turn leaves when its handler is over: the log replaced
    and the chat busy flag cleared. *)
Definition log_written (s : State) (log : list Chat.ChatMessage) : State :=
  {| selectedImage := selectedImage s;
     persona := persona s;
     isLoading := isLoading s;
     isChatLoading := false;
     chatHistory := log;
     messages := messages s;
     inputMessage := inputMessage s |}.

(** The page with its log replaced, the chat box showing that log, and
    its chat busy flag cleared. *)
Definition with_log (s : State) (log : list Chat.ChatMessage) : State :=
  {| selectedImage := selectedImage s;
     persona := persona s;
     isLoading := isLoading s;
     isChatLoading := false;
     chatHistory := log;
     messages := map bubble_of log;
     inputMessage := inputMessage s |}.

Section WithNumbers.
Context {ops : NumberOps}.

(** [submitTurn(userText)]: one run of [Home]'s [handleSendMessage]. *)
Definition submitTurn (w : world) (userText : jsstring) (s : State)
  : State * list event * outcome unit :=
  run (Home.handleSendMessage w userText) s.

(** A sequence of turns, each run to completion before the next. *)
Fixpoint submitTurns (turns : list (world * jsstring)) (s : State) : State :=
  match turns with
  | [] => s
  | (w, userText) :: rest =>
      let '(s', _, _) := submitTurn w userText s in
      submitTurns rest s'
  end.

(** The same through the chat box, which submits its input field. *)
Definition submitInput (w : world) (s : State)
  : State * list event * outcome unit :=
  run (ChatBox.handleSendMessage w) s.

End WithNumbers.
End Session.

(** *** The prompt assembler as the specification words it *)

Module Spec.
Import OpenRouter.

(** Step 1: the persona's name, description, personality, background
    and comma-joined traits, interpolated into the fixed template.
    The template is a sequence of fixed texts and places, each place
    taking one field of the record. *)
Inductive place : Type := Name | Description | Personality | Background | Traits.

Inductive piece : Type :=
| Fixed (text : jsstring)
| Place (field : place).

Definition blank_line : piece := Fixed [10; 10].

Definition fixed_template : list piece :=
  [ Fixed (str "You are "); Place Name; Fixed (str ". "); Place Description;
    blank_line;
    Fixed (str "Your personality: "); Place Personality;
    blank_line;
    Fixed (str "Your background: "); Place Background;
    blank_line;
    Fixed (str "Your key traits: "); Place Traits;
    blank_line;
    Fixed (str "IMPORTANT: You must stay in character as "); Place Name;
    Fixed (str " at all times. Respond as if you are this person/object with the personality, background, and traits described above. Be creative, engaging, and consistent with your character. Use the personality traits and background to inform your responses.");
    blank_line;
    Fixed (str "Keep your responses conversational and relatively brief (2-4 sentences typically), but feel free to be more detailed when the situation calls for it. Show emotion and personality in your responses.") ].

(** The traits one after the other, a comma and a space before each
    but the first. *)
Definition comma_joined (ts : list jsstring) : jsstring :=
  match ts with
  | [] => []
  | t :: rest => t ++ flat_map (fun x => ch "," :: ch " " :: x) rest
  end.

Definition field_text (p : PersonaResult) (f : place) : jsstring :=
  match f with
  | Name => name p
  | Description => description p
  | Personality => personality p
  | Background => background p
  | Traits => comma_joined (traits p)
  end.

Definition system_instruction (p : PersonaResult) : jsstring :=
  flat_map (fun x => match x with
                     | Fixed text => text
                     | Place f => field_text p f
                     end)
           fixed_template.

Definition turn_message (t : Chat.ChatMessage) : Request.Message :=
  {| Request.role := match Chat.role t with
                     | Chat.user => Request.user
                     | Chat.assistant => Request.assistant
                     end;
     Request.content := Request.Text (Chat.content t) |}.

(** Step 2: the system instruction first, then every turn of the log in
    order, then the new user message. *)
Definition assembled (p : PersonaResult) (h : list Chat.ChatMessage)
    (m : jsstring) : list Request.Message :=
  {| Request.role := Request.system;
     Request.content := Request.Text (system_instruction p) |}
  :: map turn_message h
  ++ [ {| Request.role := Request.user; Request.content := Request.Text m |} ].

End Spec.

(** *** Data for concrete runs *)

(** Number conversions that are right for literals written the way
    JavaScript prints them (and in range): the text itself, and whether
    a digit other than 0 occurs before any exponent. *)
Definition printed_literals : NumberOps := {|
  Number_toString := fun literal => literal;
  Number_toBoolean := fun literal =>
    existsb (fun c => (ch "1" <=? c) && (c <=? ch "9"))
      (match through_last (ch "e")
               (map (fun c => if c =? ch "E" then ch "e" else c) literal) with
       | Some mantissa => mantissa
       | None => literal
       end);
  Number_toJSON := fun literal => Some literal
|}.

Module Rocky.
Import Page.

Definition payload : jsstring :=
  quoted "{'name':'Rocky','description':'a pebble','personality':'stoic','background':'fell from a cliff','traits':['calm','gritty','old','patient','silent']}".

Definition record : PersonaResult :=
  {| name := str "Rocky";
     description := str "a pebble";
     personality := str "stoic";
     background := str "fell from a cliff";
     traits := [str "calm"; str "gritty"; str "old"; str "patient"; str "silent"] |}.

Definition partial : jsstring := quoted "{'name':'Rocky'}".

Definition photo : File := {| type := str "image/jpeg"; base64 := str "/9j/4AAQ" |}.

Definition key : option jsstring := Some (str "k").

(** A page with [record] installed and one exchange in its log. *)
Definition chatting : State :=
  {| selectedImage := Some (str "data:image/jpeg;base64,/9j/4AAQ");
     persona := Some (to_json record);
     isLoading := false;
     isChatLoading := false;
     chatHistory := [ Session.user_turn (str "hi"); Session.assistant_turn (str "...") ];
     messages := [ {| text := str "hi"; sender := user |};
                   {| text := str "..."; sender := persona_sender |} ];
     inputMessage := str "hello" |}.

Definition world_of (online : bool) (u : OpenRouter.upstream) : world :=
  {| picked := Some photo; online := online; API_KEY := key; provider := u |}.

End Rocky.

(* ================================================================== *)
(** ** The rest of the chat box, and what a run lets out *)
(* ================================================================== *)

Module ChatBoxUI.
Import Page.

(** The [disabled] attribute of the send button. *)
Definition send_disabled (s : State) : bool :=
  negb (nonempty (trim (inputMessage s))) || isChatLoading s.

(** [handleKeyPress] for a key event with the given [key] and
    [shiftKey] ([preventDefault] is left out).  The send is not awaited;
    it catches what it awaits, so nothing of it is lost. *)
Definition handleKeyPress {ops : NumberOps} (w : world) (key : jsstring)
    (shiftKey : bool) (snap : State) : M State event unit :=
  if eqb key (str "Enter") && negb shiftKey
  then ChatBox.handleSendMessage w snap
  else ret tt.

End ChatBoxUI.

Module Observed.
Import Page.

Definition is_toast (e : event) : bool :=
  match e with
  | toast_success _ | toast_error _ => true
  | _ => false
  end.

(** The notifications of a run. *)
Definition toasts (issued : list event) : list event := filter is_toast issued.

(** The bodies posted to [/api/chat]. *)
Definition to_chat_route (issued : list event) : list Chat.ChatRequest :=
  flat_map (fun e => match e with fetch_chat b => [b] | _ => [] end) issued.

(** The images posted to [/api/generate-persona]. *)
Definition to_persona_route (issued : list event) : list File :=
  flat_map (fun e => match e with fetch_generate_persona f => [f] | _ => [] end)
           issued.

(** No assistant turn of the log is empty. *)
Definition replies_nonempty (log : list Chat.ChatMessage) : bool :=
  forallb (fun t => match Chat.role t with
                    | Chat.assistant => nonempty (Chat.content t)
                    | Chat.user => true
                    end) log.

End Observed.

(** *** More data for concrete runs *)

Module Pebble.
Import Page.

(** The payload with its braces taken off. *)
Definition inner : jsstring := removelast (tl Rocky.payload).

(** A Markdown code fence: three backticks (code unit 96) and a tag
    before the payload, three backticks after it. *)
Definition fence_open : jsstring := [96; 96; 96] ++ str "json" ++ [10].
Definition fence_close : jsstring := [10; 96; 96; 96].

(** The page of [Rocky.chatting] with an input typed in, spaces at its
    ends. *)
Definition typing : State :=
  {| selectedImage := selectedImage Rocky.chatting;
     persona := persona Rocky.chatting;
     isLoading := false;
     isChatLoading := false;
     chatHistory := chatHistory Rocky.chatting;
     messages := messages Rocky.chatting;
     inputMessage := str "  hello " |}.

End Pebble.

(** *** Where the parser stands, for its invariant *)

(** The outermost open container is an object. *)
Fixpoint object_rooted (stack : list frame) : bool :=
  match stack with
  | [] => false
  | [InObject _ _] => true
  | [InArray _] => false
  | _ :: up => object_rooted up
  end.

(** The value under construction is an object. *)
Definition building_object (st : pstate) : Prop :=
  match st with
  | PValue stack | PArrayOpen stack | PArrayNext _ stack =>
      object_rooted stack = true
  | PObjectOpen stack | PKey _ stack | PColon _ _ stack | PObjectNext _ stack =>
      stack = [] \/ object_rooted stack = true
  | PDone v => exists members, v = JObject members
  end.


(* ================================================================== *)
(** * Properties *)
(* ================================================================== *)

Arguments str : simpl never.
Arguments quoted : simpl never.
Arguments decimal : simpl never.
Arguments Page.apology : simpl never.
Arguments GeneratePersona.request : simpl never.
Arguments Chat.template : simpl never.

(** ** Strings and the brace scan *)

Lemma eqb_eq (s t : jsstring) : eqb s t = true <-> s = t.
Proof.
  revert t; induction s as [|c s IH]; intros [|d t]; simpl; split;
    try congruence; try (intros _; reflexivity).
  - intros H. apply andb_true_iff in H as [Hc Hs].
    apply N.eqb_eq in Hc. apply IH in Hs. now subst.
  - intros H. injection H as -> ->. rewrite N.eqb_refl. now apply IH.
Qed.

Lemma trimStart_spaces (s : jsstring) :
  Forall (fun c => is_space c = true) s -> trimStart s = [].
Proof.
  induction 1 as [|c s Hc _ IH]; simpl; [reflexivity|].
  now rewrite Hc.
Qed.

Lemma trim_spaces (s : jsstring) :
  Forall (fun c => is_space c = true) s -> trim s = [].
Proof.
  intros H. unfold trim. now rewrite (trimStart_spaces s H).
Qed.

Lemma from_first_skip (c : N) (pre s : jsstring) :
  Forall (fun x => x <> c) pre ->
  from_first c (pre ++ c :: s) = Some (c :: s).
Proof.
  induction 1 as [|x pre Hx _ IH]; simpl.
  - now rewrite N.eqb_refl.
  - apply N.eqb_neq in Hx. now rewrite Hx.
Qed.

Lemma through_last_none (c : N) (post : jsstring) :
  Forall (fun x => x <> c) post -> through_last c post = None.
Proof.
  induction 1 as [|x post Hx _ IH]; simpl; [reflexivity|].
  rewrite IH. apply N.eqb_neq in Hx. now rewrite Hx.
Qed.

Lemma through_last_end (c : N) (s : jsstring) :
  through_last c (s ++ [c]) = Some (s ++ [c]).
Proof.
  induction s as [|x s IH]; simpl.
  - now rewrite N.eqb_refl.
  - now rewrite IH.
Qed.

Lemma through_last_app (c : N) (s post : jsstring) :
  Forall (fun x => x <> c) post ->
  through_last c ((s ++ [c]) ++ post) = Some (s ++ [c]).
Proof.
  intros Hpost. induction s as [|x s IH]; simpl.
  - rewrite (through_last_none c post Hpost). now rewrite N.eqb_refl.
  - simpl in IH. now rewrite IH.
Qed.

(** Around a text that opens with a brace and closes with one, noise
    without an opening brace before it and without a closing brace
    after it is cut off. *)
Lemma match_braces_noise (pre inner post : jsstring) :
  Forall (fun x => x <> ch "{") pre ->
  Forall (fun x => x <> ch "}") post ->
  match_braces (pre ++ (ch "{" :: inner ++ [ch "}"]) ++ post)
  = Some (ch "{" :: inner ++ [ch "}"]).
Proof.
  intros Hpre Hpost. unfold match_braces.
  change (pre ++ (ch "{" :: inner ++ [ch "}"]) ++ post)
    with (pre ++ ch "{" :: (inner ++ [ch "}"]) ++ post).
  rewrite (from_first_skip _ pre _ Hpre).
  change (ch "{" :: (inner ++ [ch "}"]) ++ post)
    with (((ch "{" :: inner) ++ [ch "}"]) ++ post).
  now rewrite (through_last_app _ _ post Hpost).
Qed.

(** ** Running the monad *)

(** Unfolds the monad's operations and reduces what they expose,
    leaving the program's constants folded. *)
Ltac run :=
  cbv beta iota zeta
      delta [bind ret throw emit modify try_catch try_finally respond];
  cbn [app fst snd negb andb orb].

Lemma emit_all_run (es : list Page.event) (s : Page.State) :
  Page.emit_all es s = (s, es, Returned tt).
Proof.
  induction es as [|e es IH]; [reflexivity|].
  cbn [Page.emit_all]. run. now rewrite IH.
Qed.

(** ** Values on the wire *)

Section Wire.
Context {ops : NumberOps}.

Lemma lookup_transmitted (k : jsstring) (ms : list (jsstring * json)) :
  lookup k (map (fun '(k, x) => (k, transmitted x)) ms)
  = option_map transmitted (lookup k ms).
Proof.
  induction ms as [|[k' x] ms IH]; [reflexivity|].
  cbn [map lookup]. destruct (eqb k k'); [reflexivity|exact IH].
Qed.

(** Every member arrives, under its name. *)
Lemma get_transmitted (v : json) (k : jsstring) :
  get (transmitted v) k = option_map transmitted (get v k).
Proof.
  destruct v as [| | n | | |ms]; try reflexivity.
  - cbn [transmitted]. now destruct (Number_toJSON n).
  - apply lookup_transmitted.
Qed.

Lemma transmitted_strings (ts : list jsstring) :
  map transmitted (map JString ts) = map JString ts.
Proof.
  induction ts as [|t ts IH]; [reflexivity|]. cbn [map]. now rewrite IH.
Qed.

(** The five fields of a persona record arrive as they were. *)
Lemma holds_transmitted (v : json) (p : PersonaResult) :
  holds v p -> holds (transmitted v) p.
Proof.
  intros (Hname & Hdescription & Hpersonality & Hbackground & Htraits).
  unfold holds. rewrite !get_transmitted.
  rewrite Hname, Hdescription, Hpersonality, Hbackground, Htraits.
  cbn [option_map transmitted]. rewrite transmitted_strings. auto.
Qed.

(** A member that is a number without a finite value arrives as
    [null]. *)
Lemma not_finite_arrives_null (v : json) (k n : jsstring) :
  get v k = Some (JNumber n) ->
  Number_toJSON n = None ->
  get (transmitted v) k = Some JNull.
Proof.
  intros Hmember Hn. rewrite get_transmitted, Hmember. cbn. now rewrite Hn.
Qed.

End Wire.

(** ** What React does after a handler *)

Lemma sets_log_provider (rs : list OpenRouter.Request.Body) :
  existsb Page.sets_log (map Page.fetch_provider rs) = false.
Proof. induction rs; cbn; auto. Qed.

(** After a turn that set the log, the bubbles are the log's. *)
Lemma settle_log_written (store : Page.State) (log : list Chat.ChatMessage)
    (issued : list Page.event) :
  existsb Page.sets_log issued = true ->
  Page.settle (Session.log_written store log) issued = Session.with_log store log.
Proof. intros H. unfold Page.settle. now rewrite H. Qed.

Lemma run_result {A} (handler : Page.State -> M Page.State Page.event A)
    (s s' : Page.State) (issued : list Page.event) (r : outcome A) :
  handler s s = (s', issued, r) ->
  Page.run handler s = (Page.settle s' issued, issued, r).
Proof. intros H. unfold Page.run. now rewrite H. Qed.

(** ** The provider call *)

Lemma complete_issued (req : OpenRouter.Request.Body) (u : OpenRouter.upstream) :
  exists r, OpenRouter.complete req u tt = (tt, [req], r).
Proof.
  unfold OpenRouter.complete, bind, emit.
  destruct u as [|status [c|]]; simpl; eauto.
  - destruct (ok status); simpl; eauto.
    destruct (OpenRouter.Reply.choices c) as [cs|]; simpl; eauto.
    destruct (OpenRouter.first_content cs) as [[|x t]|]; simpl; eauto.
  - destruct (ok status); simpl; eauto.
Qed.

Lemma complete_failed (req : OpenRouter.Request.Body) (u : OpenRouter.upstream) :
  Session.failed u = true ->
  exists e, OpenRouter.complete req u tt = (tt, [req], Thrown e).
Proof.
  unfold OpenRouter.complete, bind, emit, Session.failed, Session.response_text.
  destruct u as [|status [c|]]; simpl; eauto.
  - destruct (ok status); simpl; eauto.
    destruct (OpenRouter.Reply.choices c) as [cs|]; simpl; eauto.
    destruct (OpenRouter.first_content cs) as [[|x t]|]; simpl; eauto.
    discriminate.
  - destruct (ok status); simpl; eauto.
Qed.

Lemma complete_answered (req : OpenRouter.Request.Body) (u : OpenRouter.upstream) :
  Session.failed u = false ->
  exists text,
    Session.response_text u = Some text /\ nonempty text = true
    /\ OpenRouter.complete req u tt = (tt, [req], Returned text).
Proof.
  unfold OpenRouter.complete, bind, emit, Session.failed, Session.response_text.
  destruct u as [|status [c|]]; simpl; try discriminate.
  - destruct (ok status); simpl; try discriminate.
    destruct (OpenRouter.Reply.choices c) as [cs|]; simpl; try discriminate.
    destruct (OpenRouter.first_content cs) as [[|x t]|]; simpl; try discriminate.
    intros _. exists (x :: t). auto.
  - destruct (ok status); simpl; discriminate.
Qed.

(** ** Route [/api/generate-persona] *)

(** The route on a usable provider answer: the brace scan, then
    [JSON.parse], and nothing else, decide the response. *)
Lemma generate_persona_on_text (image : File) (key : option jsstring)
    (u : OpenRouter.upstream) (text : jsstring) :
  present key = true ->
  Session.failed u = false ->
  Session.response_text u = Some text ->
  snd (GeneratePersona.POST (Some image) key u)
  = match match_braces text with
    | Some candidate =>
        match JSON_parse candidate with
        | Some v => GeneratePersona.Success v
        | None => GeneratePersona.ServerError (str "Failed to generate persona")
        end
    | None => GeneratePersona.ServerError (str "Failed to generate persona")
    end.
Proof.
  intros Hkey Hu Htext.
  destruct (complete_answered
              (GeneratePersona.request (GeneratePersona.data_url image))
              u Hu) as (text' & Htext' & _ & Hrun).
  assert (text' = text) by congruence. subst text'.
  unfold GeneratePersona.POST. run. rewrite Hkey. run. rewrite Hrun.
  destruct (match_braces text) as [candidate|]; run; [|reflexivity].
  destruct (JSON_parse candidate); reflexivity.
Qed.

(** The route succeeds only on a usable provider answer whose brace
    scan decodes. *)
Lemma generate_persona_success (image : option File) (key : option jsstring)
    (u : OpenRouter.upstream) (v : json) :
  snd (GeneratePersona.POST image key u) = GeneratePersona.Success v ->
  exists text candidate,
    Session.failed u = false /\ Session.response_text u = Some text
    /\ match_braces text = Some candidate /\ JSON_parse candidate = Some v.
Proof.
  unfold GeneratePersona.POST.
  destruct image as [image|]; run; [|discriminate].
  destruct (present key); run; [|discriminate].
  destruct (Session.failed u) eqn:Hu.
  - destruct (complete_failed
                (GeneratePersona.request (GeneratePersona.data_url image))
                u Hu) as (e & ->).
    discriminate.
  - destruct (complete_answered
                (GeneratePersona.request (GeneratePersona.data_url image))
                u Hu) as (text & Htext & _ & ->).
    destruct (match_braces text) as [candidate|] eqn:Hm; run; [|discriminate].
    destruct (JSON_parse candidate) as [p|] eqn:Hp; run; [|discriminate].
    intros H. injection H as <-. exists text, candidate. auto.
Qed.

Lemma occurs_false (c : N) (s : jsstring) :
  occurs c s = false -> Forall (fun x => x <> c) s.
Proof.
  unfold occurs. induction s as [|x s IH]; simpl; intros H; constructor.
  - apply orb_false_iff in H as [H _]. apply N.eqb_neq in H. congruence.
  - apply orb_false_iff in H as [_ H]. now apply IH.
Qed.

Lemma nonempty_app (s t u : jsstring) :
  nonempty t = true -> nonempty (s ++ t ++ u) = true.
Proof.
  destruct s; simpl; [|reflexivity]. destruct t; simpl; [discriminate|reflexivity].
Qed.

Lemma says_not_failed (text : jsstring) :
  nonempty text = true ->
  Session.failed (Session.says text) = false
  /\ Session.response_text (Session.says text) = Some text.
Proof.
  intros H. unfold Session.failed, Session.says. simpl. now rewrite H.
Qed.

Lemma rocky_payload_shape :
  Rocky.payload = ch "{" :: removelast (tl Rocky.payload) ++ [ch "}"].
Proof. vm_compute. reflexivity. Qed.

Lemma rocky_payload_decodes : JSON_parse Rocky.payload = Some (to_json Rocky.record).
Proof. vm_compute. reflexivity. Qed.

Lemma to_json_holds (p : PersonaResult) : holds (to_json p) p.
Proof. unfold holds, to_json. repeat split; vm_compute; reflexivity. Qed.

(** C2, as stated, fails on the code: noise is not arbitrary.  Noise
    that holds an opening brace of its own is not ignored: for the
    text [no{ise ] followed by the Rocky payload and [ trailing], the
    scan starts at the brace of the noise, the candidate does not
    decode, and the route answers 500 instead of success. *)
Lemma noise_with_brace_breaks :
  let text := str "no{ise " ++ Rocky.payload ++ str " trailing" in
  match_braces text = Some (str "{ise " ++ Rocky.payload)
  /\ JSON_parse (str "{ise " ++ Rocky.payload) = None
  /\ snd (GeneratePersona.POST (Some Rocky.photo) Rocky.key (Session.says text))
     = GeneratePersona.ServerError (str "Failed to generate persona").
Proof. vm_compute. repeat split. Qed.

(** C1, as stated, fails on the code: for the provider text
    [{"name":"Rocky"}] the route answers success, and the persona it
    carries has the name alone; the page installs it and reports
    success. *)
Lemma partial_persona_accepted :
  let partial := JObject [ (str "name", JString (str "Rocky")) ] in
  snd (GeneratePersona.POST (Some Rocky.photo) Rocky.key (Session.says Rocky.partial))
  = GeneratePersona.Success partial
  /\ get partial (str "description") = None
  /\ get partial (str "personality") = None
  /\ get partial (str "background") = None
  /\ get partial (str "traits") = None
  /\ (let '(s', issued, _) :=
        Session.createPersona (ops := printed_literals)
          (Rocky.world_of true (Session.says Rocky.partial)) Rocky.chatting in
      Session.succeeded issued = true /\ Page.persona s' = Some partial).
Proof. vm_compute. repeat split. Qed.

(** C1, amended: the route checks no field.  On a usable provider
    answer it reports success with whatever value the brace-delimited
    candidate decodes to, unchanged, and it fails (status 500, "Failed
    to generate persona") exactly when the text has no such candidate
    or the candidate does not decode. *)
Theorem decoded_payload_accepted_unvalidated
    (image : File) (key : option jsstring) (u : OpenRouter.upstream)
    (text : jsstring) :
  present key = true ->
  Session.failed u = false ->
  Session.response_text u = Some text ->
  let response := snd (GeneratePersona.POST (Some image) key u) in
  let failure := GeneratePersona.ServerError (str "Failed to generate persona") in
  (forall candidate v,
      match_braces text = Some candidate -> JSON_parse candidate = Some v ->
      response = GeneratePersona.Success v)
  /\ (match_braces text = None -> response = failure)
  /\ (forall candidate,
         match_braces text = Some candidate -> JSON_parse candidate = None ->
         response = failure).
Proof.
  intros Hkey Hu Htext response failure. subst response failure.
  rewrite (generate_persona_on_text image key u text Hkey Hu Htext).
  repeat split.
  - intros candidate v -> ->. reflexivity.
  - intros ->. reflexivity.
  - intros candidate -> ->. reflexivity.
Qed.

(** C2, amended: around the Rocky payload, noise without an opening
    brace before it and without a closing brace after it is ignored:
    the scan returns the payload, the route reports success, and the
    persona it carries has the name [Rocky] and five traits (it has
    all five fields of the record). *)
Theorem extraction_round_trip
    (image : File) (key : option jsstring) (noise trailing : jsstring) :
  present key = true ->
  occurs (ch "{") noise = false ->
  occurs (ch "}") trailing = false ->
  let text := noise ++ Rocky.payload ++ trailing in
  match_braces text = Some Rocky.payload
  /\ exists v,
       snd (GeneratePersona.POST (Some image) key (Session.says text))
       = GeneratePersona.Success v
       /\ holds v Rocky.record
       /\ get v (str "name") = Some (JString (str "Rocky"))
       /\ exists ts, get v (str "traits") = Some (JArray ts) /\ List.length ts = 5%nat.
Proof.
  intros Hkey Hnoise Htrailing text.
  assert (Hmatch : match_braces text = Some Rocky.payload).
  { subst text. rewrite rocky_payload_shape.
    apply match_braces_noise; now apply occurs_false. }
  split; [exact Hmatch|].
  assert (Htext : nonempty text = true) by (now apply nonempty_app).
  destruct (says_not_failed text Htext) as [Hu Hr].
  exists (to_json Rocky.record).
  rewrite (generate_persona_on_text image key _ text Hkey Hu Hr).
  rewrite Hmatch, rocky_payload_decodes.
  split; [reflexivity|]. split; [apply to_json_holds|].
  split; [reflexivity|].
  eexists. split; reflexivity.
Qed.

(** ** [createPersona] *)

Lemma succeeded_app (xs ys : list Page.event) :
  Session.succeeded (xs ++ ys) = Session.succeeded xs || Session.succeeded ys.
Proof. apply existsb_app. Qed.

Lemma succeeded_provider (rs : list OpenRouter.Request.Body) :
  Session.succeeded (map Page.fetch_provider rs) = false.
Proof. induction rs; simpl; auto. Qed.

Lemma succeeded_cons (e : Page.event) (es : list Page.event) :
  Session.succeeded (e :: es) = Session.is_success e || Session.succeeded es.
Proof. reflexivity. Qed.

Lemma succeeded_nil : Session.succeeded [] = false.
Proof. reflexivity. Qed.

Create Rewrite HintDb events.
#[local] Hint Rewrite succeeded_app succeeded_cons succeeded_provider succeeded_nil
  orb_false_r orb_true_r : events.

(** Decides whether a list of issued events holds a success toast. *)
Ltac events := autorewrite with events; cbn [Session.is_success orb]; try reflexivity.

(** Decides whether the effect on the history runs, and runs it. *)
Ltac settled :=
  unfold Page.settle;
  rewrite ?existsb_app, ?sets_log_provider;
  cbn [existsb Page.sets_log orb app];
  rewrite ?existsb_app, ?sets_log_provider;
  cbn [existsb Page.sets_log orb app fst snd].

Section CreatePersona.
Context {ops : NumberOps}.

(** The three ways a run of [generatePersona] ends. *)
Lemma createPersona_cases (w : Page.world) (s : Page.State) :
  (present (Page.selectedImage s) = false
   /\ exists issued,
        Session.succeeded issued = false
        /\ Session.createPersona w s = (s, issued, Returned tt))
  \/ (exists issued,
        Session.succeeded issued = false
        /\ Session.createPersona w s
           = ({| Page.selectedImage := Page.selectedImage s;
                 Page.persona := Page.persona s;
                 Page.isLoading := false;
                 Page.isChatLoading := Page.isChatLoading s;
                 Page.chatHistory := Page.chatHistory s;
                 Page.messages := Page.messages s;
                 Page.inputMessage := Page.inputMessage s |},
              issued, Returned tt))
  \/ (exists issued image v,
        Page.picked w = Some image /\ Page.online w = true
        /\ snd (GeneratePersona.POST (Some image) (Page.API_KEY w) (Page.provider w))
           = GeneratePersona.Success v
        /\ Session.succeeded issued = true
        /\ Session.createPersona w s
           = ({| Page.selectedImage := Page.selectedImage s;
                 Page.persona := Some (transmitted v);
                 Page.isLoading := false;
                 Page.isChatLoading := Page.isChatLoading s;
                 Page.chatHistory := [];
                 Page.messages := [];
                 Page.inputMessage := Page.inputMessage s |},
              issued, Returned tt)).
Proof.
  unfold Session.createPersona, Page.run, Home.generatePersona.
  destruct (present (Page.selectedImage s)) eqn:Himage; cbn [negb].
  2:{ left. split; [reflexivity|]. eexists. split; [|reflexivity]. reflexivity. }
  right.
  unfold Home.post_generate_persona, Page.setIsLoading, Page.setPersona,
    Page.setChatHistory.
  destruct (Page.picked w) as [image|]; run.
  2:{ left. eexists. split; [|reflexivity]. reflexivity. }
  destruct (Page.online w); run.
  2:{ left. eexists. split; [|reflexivity]. reflexivity. }
  destruct (GeneratePersona.POST (Some image) (Page.API_KEY w) (Page.provider w))
    as [reqs response] eqn:Hpost.
  run. rewrite emit_all_run. run.
  destruct response as [v|e|e]; run; settled.
  - right. eexists. exists image, v.
    split; [reflexivity|]. split; [reflexivity|].
    split; [now rewrite Hpost|]. split; [|reflexivity]. events.
  - left. eexists. split; [|reflexivity]. events.
  - left. eexists. split; [|reflexivity]. events.
Qed.

(** Selecting a new image, which comes before [generatePersona], is
    what discards the persona and the log of the image before. *)
Lemma image_upload_clears (file : File) (dataUrl : jsstring) (s : Page.State) :
  eqb (firstn 6 (type file)) (str "image/") = true ->
  Home.handleImageUpload (Some file) dataUrl s
  = ({| Page.selectedImage := Some dataUrl;
        Page.persona := None;
        Page.isLoading := Page.isLoading s;
        Page.isChatLoading := Page.isChatLoading s;
        Page.chatHistory := [];
        Page.messages := Page.messages s;
        Page.inputMessage := Page.inputMessage s |},
     [Page.chatHistory_set], Returned tt).
Proof.
  intros Himage. unfold Home.handleImageUpload. rewrite Himage. reflexivity.
Qed.

(** Each of the listed reasons makes a run of [generatePersona] fail:
    no network, a failed provider call, a text without a
    brace-delimited candidate, a candidate that does not decode. *)
Lemma createPersona_failure_reasons (w : Page.world) (s : Page.State) :
  Page.online w = false
  \/ Session.failed (Page.provider w) = true
  \/ (exists text,
        Session.response_text (Page.provider w) = Some text
        /\ (match_braces text = None
            \/ exists candidate,
                 match_braces text = Some candidate /\ JSON_parse candidate = None)) ->
  Session.succeeded (snd (fst (Session.createPersona w s))) = false.
Proof.
  intros Hwhy.
  destruct (createPersona_cases w s)
    as [(_ & issued & Hno & ->) | [(issued & Hno & ->) |
        (issued & image & v & _ & Hon & Hpost & _ & _)]];
    [exact Hno | exact Hno | exfalso].
  apply generate_persona_success in Hpost
    as (text & candidate & Hu & Htext & Hmatch & Hparse).
  destruct Hwhy as [Hoff | [Hfailed | (text' & Htext' & Hbad)]]; [congruence..|].
  assert (text' = text) by congruence. subst text'.
  destruct Hbad as [Hnone | (candidate' & Hmatch' & Hnone)]; congruence.
Qed.

(** C4: a run of [createPersona] that fails, for whatever reason,
    leaves the persona and the conversation log as they were (and the
    selected image and the chat box too); it clears the busy flag, so a
    page that was not busy is left exactly as it was. *)
Theorem createPersona_failure_leaves_state
    (w : Page.world) (s s' : Page.State) (issued : list Page.event)
    (r : outcome unit) :
  Session.createPersona w s = (s', issued, r) ->
  Session.succeeded issued = false ->
  Page.persona s' = Page.persona s
  /\ Page.chatHistory s' = Page.chatHistory s
  /\ Page.selectedImage s' = Page.selectedImage s
  /\ Page.isChatLoading s' = Page.isChatLoading s
  /\ Page.messages s' = Page.messages s
  /\ Page.inputMessage s' = Page.inputMessage s
  /\ (Page.isLoading s = false -> s' = s).
Proof.
  intros Hrun Hfail.
  destruct (createPersona_cases w s)
    as [(_ & issued' & _ & Heq) | [(issued' & _ & Heq) |
        (issued' & image & v & _ & _ & _ & Hyes & Heq)]];
    rewrite Heq in Hrun; injection Hrun as <- <- <-.
  - repeat split; reflexivity.
  - cbn. repeat split; try reflexivity.
    intros Hidle. destruct s; cbn in *. now subst.
  - congruence.
Qed.

(** C5: after a run of [createPersona] that succeeds the conversation
    log is empty, whatever it held, and the persona is the newly
    extracted one and nothing of the one before: it is the value
    decoded from the provider's text as the route's response carries
    it to the page, with every member of that value under its name,
    and the five fields of a persona record exactly as they were
    decoded. *)
Theorem persona_replacement_resets_log
    (w : Page.world) (s s' : Page.State) (issued : list Page.event)
    (r : outcome unit) :
  Session.createPersona w s = (s', issued, r) ->
  Session.succeeded issued = true ->
  Page.chatHistory s' = []
  /\ exists text candidate v,
       Session.response_text (Page.provider w) = Some text
       /\ match_braces text = Some candidate
       /\ JSON_parse candidate = Some v
       /\ Page.persona s' = Some (transmitted v)
       /\ (forall k, get (transmitted v) k = option_map transmitted (get v k))
       /\ (forall p, holds v p -> holds (transmitted v) p).
Proof.
  intros Hrun Hyes.
  destruct (createPersona_cases w s)
    as [(_ & issued' & Hno & Heq) | [(issued' & Hno & Heq) |
        (issued' & image & v & _ & _ & Hpost & _ & Heq)]];
    rewrite Heq in Hrun; injection Hrun as <- <- <-; [congruence..|].
  apply generate_persona_success in Hpost
    as (text & candidate & _ & Htext & Hmatch & Hparse).
  split; [reflexivity|]. exists text, candidate, v.
  repeat (split; [assumption || reflexivity|]).
  split; [apply get_transmitted|apply holds_transmitted].
Qed.

End CreatePersona.

(** ** Route [/api/chat] *)

Section ChatProperties.
Context {ops : NumberOps}.

(** Filling the template issues nothing. *)
Lemma systemPrompt_pure (persona : json) :
  exists r, Chat.systemPrompt persona tt = (tt, [], r).
Proof.
  unfold Chat.systemPrompt, filled.
  destruct (interpolate (get persona (str "name"))); run; eauto.
  destruct (interpolate (get persona (str "description"))); run; eauto.
  destruct (interpolate (get persona (str "personality"))); run; eauto.
  destruct (interpolate (get persona (str "background"))); run; eauto.
  destruct (get persona (str "traits")) as [[| | | |ts|]|]; run; eauto.
  destruct (Array_join (str ", ") ts); run; eauto.
Qed.

(** The requests the route issues are settled before the provider is
    heard: none when the guard or the template stops it, else the one
    built from the assembled messages. *)
Lemma chat_requests (body : Chat.ChatRequest) (u : OpenRouter.upstream) :
  fst (Chat.POST body u)
  = if negb (nonempty (Chat.message body)) || negb (truthy (Chat.persona body))
    then []
    else match Chat.build_messages (Chat.persona body)
                 (match Chat.chatHistory body with Some h => h | None => [] end)
                 (Chat.message body) tt with
         | (_, _, Returned messages) =>
             [ {| OpenRouter.Request.model := str "z-ai/glm-4.5-air:free";
                  OpenRouter.Request.messages := messages;
                  OpenRouter.Request.max_tokens := 500 |} ]
         | (_, _, Thrown _) => []
         end.
Proof.
  unfold Chat.POST.
  destruct (negb (nonempty (Chat.message body)) || negb (truthy (Chat.persona body)));
    [reflexivity|].
  unfold Chat.build_messages.
  destruct (systemPrompt_pure (Chat.persona body)) as (r & Hr). run.
  rewrite Hr. destruct r as [systemPrompt|e]; run; [|reflexivity].
  match goal with
  | |- context [OpenRouter.complete ?req u tt] =>
      destruct (complete_issued req u) as (r & ->)
  end.
  destruct r; reflexivity.
Qed.

(** The route answers success only with the text of a provider call
    that did not fail. *)
Lemma chat_success (body : Chat.ChatRequest) (u : OpenRouter.upstream)
    (text : jsstring) :
  snd (Chat.POST body u) = Chat.Success text ->
  Session.failed u = false /\ Session.response_text u = Some text.
Proof.
  unfold Chat.POST.
  destruct (negb (nonempty (Chat.message body)) || negb (truthy (Chat.persona body)));
    [discriminate|].
  unfold Chat.build_messages.
  destruct (systemPrompt_pure (Chat.persona body)) as (r & Hr). run.
  rewrite Hr. destruct r as [systemPrompt|e]; run; [|discriminate].
  match goal with
  | |- context [OpenRouter.complete ?req u tt] =>
      destruct (Session.failed u) eqn:Hu;
      [ destruct (complete_failed req u Hu) as (e & ->)
      | destruct (complete_answered req u Hu) as (text' & Htext & _ & ->) ]
  end; run; [discriminate|].
  intros H. injection H as <-. auto.
Qed.

End ChatProperties.

(** ** [submitTurn] *)

Lemma to_provider_app (xs ys : list Page.event) :
  Session.to_provider (xs ++ ys) = Session.to_provider xs ++ Session.to_provider ys.
Proof. apply flat_map_app. Qed.

Lemma to_provider_routes (rs : list OpenRouter.Request.Body) :
  Session.to_provider (map Page.fetch_provider rs) = rs.
Proof. induction rs as [|r rs IH]; simpl; [reflexivity|]. now rewrite IH. Qed.

Lemma toasts_app (xs ys : list Page.event) :
  Observed.toasts (xs ++ ys) = Observed.toasts xs ++ Observed.toasts ys.
Proof. apply filter_app. Qed.

Lemma toasts_provider (rs : list OpenRouter.Request.Body) :
  Observed.toasts (map Page.fetch_provider rs) = [].
Proof. induction rs; cbn; auto. Qed.

Lemma to_persona_route_app (xs ys : list Page.event) :
  Observed.to_persona_route (xs ++ ys)
  = Observed.to_persona_route xs ++ Observed.to_persona_route ys.
Proof. apply flat_map_app. Qed.

Lemma to_persona_route_provider (rs : list OpenRouter.Request.Body) :
  Observed.to_persona_route (map Page.fetch_provider rs) = [].
Proof. induction rs; cbn; auto. Qed.

Lemma to_chat_route_app (xs ys : list Page.event) :
  Observed.to_chat_route (xs ++ ys)
  = Observed.to_chat_route xs ++ Observed.to_chat_route ys.
Proof. apply flat_map_app. Qed.

Lemma to_chat_route_provider (rs : list OpenRouter.Request.Body) :
  Observed.to_chat_route (map Page.fetch_provider rs) = [].
Proof. induction rs; cbn; auto. Qed.

Create Rewrite HintDb observed.
#[local] Hint Rewrite toasts_app toasts_provider to_persona_route_app
  to_persona_route_provider to_chat_route_app to_chat_route_provider
  to_provider_app to_provider_routes app_nil_r : observed.

Section TurnProperties.
Context {ops : NumberOps}.

(** [Home]'s handler with an active persona, run over a store that need
    not be the state it closed over (the chat box clears its input
    first): what it issues, and the two ways it ends, with the route's
    text on the log, or with the apology on the log and an exception.
    The log it writes starts from the closed-over one; the rest of the
    store is kept. *)
Lemma handleSendMessage_from (w : Page.world) (userText : jsstring)
    (snap store : Page.State) (p : json) :
  Page.persona snap = Some p -> truthy p = true ->
  exists issued,
    Observed.to_chat_route issued = [Session.turn_body snap p userText]
    /\ Observed.toasts issued = []
    /\ existsb Page.sets_log issued = true
    /\ Session.to_provider issued
       = (if Page.online w
          then fst (Chat.POST (Chat.request_json (Session.turn_body snap p userText))
                      (Page.provider w))
          else [])
    /\ ((exists text,
           Page.online w = true
           /\ snd (Chat.POST (Chat.request_json (Session.turn_body snap p userText))
                     (Page.provider w))
              = Chat.Success text
           /\ Home.handleSendMessage w userText snap store
              = (Session.log_written store
                   (Page.chatHistory snap
                    ++ [Session.user_turn userText; Session.assistant_turn text]),
                 issued, Returned tt))
        \/ (exists e,
              (Page.online w = false
               \/ forall text,
                    snd (Chat.POST (Chat.request_json
                                      (Session.turn_body snap p userText))
                           (Page.provider w))
                    <> Chat.Success text)
              /\ Home.handleSendMessage w userText snap store
                 = (Session.log_written store
                      (Page.chatHistory snap
                       ++ [Session.user_turn userText;
                           Session.assistant_turn Page.apology]),
                    issued, Thrown e))).
Proof.
  intros Hp Htruthy.
  destruct (Home.handleSendMessage w userText snap store)
    as [[s' issued] r] eqn:Hrun.
  exists issued. revert Hrun.
  unfold Home.handleSendMessage.
  rewrite Hp, Htruthy. cbn [negb].
  unfold Home.post_chat, Page.setIsChatLoading, Page.setChatHistory.
  fold (Session.user_turn userText). fold (Session.turn_body snap p userText).
  run.
  destruct (Page.online w); run.
  2:{ intros [= <- <- <-]. repeat (split; [reflexivity|]).
      right. eexists. split; [now left|].
      unfold Session.log_written. cbn. rewrite <- app_assoc. reflexivity. }
  destruct (Chat.POST (Chat.request_json (Session.turn_body snap p userText))
              (Page.provider w))
    as [reqs response] eqn:Hpost.
  run. rewrite emit_all_run. run.
  destruct response as [text|e|e]; run; intros [= <- <- <-];
    (split;
     [ cbn [Observed.to_chat_route flat_map app];
       change (flat_map _ ?l) with (Observed.to_chat_route l);
       autorewrite with observed; reflexivity |]);
    (split;
     [ cbn [Observed.toasts filter Observed.is_toast];
       change (filter Observed.is_toast ?l) with (Observed.toasts l);
       autorewrite with observed; reflexivity |]);
    (split; [reflexivity|]);
    (split;
     [ cbn [Session.to_provider flat_map app];
       change (flat_map _ ?l) with (Session.to_provider l);
       autorewrite with observed; reflexivity |]).
  - left. exists text. split; [reflexivity|]. split; [reflexivity|].
    unfold Session.log_written. cbn. rewrite <- app_assoc. reflexivity.
  - right. eexists. split; [right; discriminate|].
    unfold Session.log_written. cbn. rewrite <- app_assoc. reflexivity.
  - right. eexists. split; [right; discriminate|].
    unfold Session.log_written. cbn. rewrite <- app_assoc. reflexivity.
Qed.

(** The same for a turn run from the page, once React has rendered
    what it left: the chat box shows the log. *)
Lemma submitTurn_cases (w : Page.world) (userText : jsstring) (s : Page.State)
    (p : json) :
  Page.persona s = Some p -> truthy p = true ->
  exists issued,
    Session.to_provider issued
    = (if Page.online w
       then fst (Chat.POST (Chat.request_json (Session.turn_body s p userText))
                   (Page.provider w))
       else [])
    /\ ((exists text,
           Page.online w = true
           /\ snd (Chat.POST (Chat.request_json (Session.turn_body s p userText))
                     (Page.provider w))
              = Chat.Success text
           /\ Session.submitTurn w userText s
              = (Session.with_log s
                   (Page.chatHistory s
                    ++ [Session.user_turn userText; Session.assistant_turn text]),
                 issued, Returned tt))
        \/ (exists e,
              (Page.online w = false
               \/ forall text,
                    snd (Chat.POST (Chat.request_json
                                      (Session.turn_body s p userText))
                           (Page.provider w))
                    <> Chat.Success text)
              /\ Session.submitTurn w userText s
                 = (Session.with_log s
                      (Page.chatHistory s
                       ++ [Session.user_turn userText;
                           Session.assistant_turn Page.apology]),
                    issued, Thrown e))).
Proof.
  intros Hp Htruthy.
  destruct (handleSendMessage_from w userText s s p Hp Htruthy)
    as (issued & _ & _ & Hset & Hsent & Hrun).
  exists issued. split; [exact Hsent|].
  unfold Session.submitTurn.
  destruct Hrun as [(text & Hon & Hpost & Hrun) | (e & Hwhy & Hrun)];
    rewrite (run_result _ _ _ _ _ Hrun), (settle_log_written _ _ _ Hset);
    [left; exists text|right; exists e]; auto.
Qed.

(** What one turn with an active persona posts to its route. *)
Lemma submitTurn_posts (w : Page.world) (userText : jsstring) (s : Page.State)
    (p : json) :
  Page.persona s = Some p -> truthy p = true ->
  Observed.to_chat_route (snd (fst (Session.submitTurn w userText s)))
  = [Session.turn_body s p userText]
  /\ Observed.toasts (snd (fst (Session.submitTurn w userText s))) = [].
Proof.
  intros Hp Htruthy.
  destruct (handleSendMessage_from w userText s s p Hp Htruthy)
    as (issued & Hposts & Htoasts & _ & _ & Hrun).
  unfold Session.submitTurn.
  destruct Hrun as [(text & _ & _ & Hrun) | (e & _ & Hrun)];
    rewrite (run_result _ _ _ _ _ Hrun); auto.
Qed.

End TurnProperties.

Section Turns.
Context {ops : NumberOps}.

Lemma has_persona_inv (s : Page.State) :
  Page.has_persona s = true ->
  exists p, Page.persona s = Some p /\ truthy p = true.
Proof.
  unfold Page.has_persona. destruct (Page.persona s) as [p|]; [|discriminate].
  intros H. now exists p.
Qed.

(** One turn with an active persona puts the user turn and then one
    assistant turn on the log, and touches nothing else but the busy
    flag, which it clears. *)
Lemma submitTurn_appends (w : Page.world) (userText : jsstring) (s : Page.State) :
  Page.has_persona s = true ->
  exists reply,
    fst (fst (Session.submitTurn w userText s))
    = Session.with_log s
        (Page.chatHistory s
         ++ [Session.user_turn userText; Session.assistant_turn reply]).
Proof.
  intros H. apply has_persona_inv in H as (p & Hp & Ht).
  destruct (submitTurn_cases w userText s p Hp Ht)
    as (issued & _ & [(text & _ & _ & ->) | (e & _ & ->)]);
    eexists; reflexivity.
Qed.

(** C3: when the provider call of a turn fails (network error,
    non-success status, empty or missing text), the log afterwards is
    the log before, then the user turn, then one assistant turn with
    the fixed apology; and the call throws to its caller. *)
Theorem fallback_on_upstream_failure
    (w : Page.world) (userText : jsstring) (s : Page.State) :
  Page.has_persona s = true ->
  Session.failed (Page.provider w) = true ->
  let '(s', _, r) := Session.submitTurn w userText s in
  Page.chatHistory s'
  = Page.chatHistory s
    ++ [ {| Chat.role := Chat.user; Chat.content := userText |};
         {| Chat.role := Chat.assistant;
            Chat.content :=
              str "I" ++ [39] ++ str "m sorry, I" ++ [39]
              ++ str "m having trouble responding right now. Please try again." |} ]
  /\ exists error, r = Thrown error.
Proof.
  intros H Hfailed. apply has_persona_inv in H as (p & Hp & Ht).
  destruct (submitTurn_cases w userText s p Hp Ht)
    as (issued & _ & [(text & _ & Hpost & _) | (e & _ & ->)]).
  - apply chat_success in Hpost as [Hok _]. congruence.
  - split; [reflexivity|]. now exists e.
Qed.

Lemma submitTurns_persona (turns : list (Page.world * jsstring)) (s : Page.State) :
  Page.has_persona s = true ->
  Page.has_persona (Session.submitTurns turns s) = true.
Proof.
  revert s. induction turns as [|[w userText] turns IH]; intros s H; [exact H|].
  cbn [Session.submitTurns].
  destruct (submitTurn_appends w userText s H) as (reply & Hrun).
  destruct (Session.submitTurn w userText s) as [[s1 issued] r].
  cbn in Hrun. subst s1. apply IH. exact H.
Qed.

(** C6: after any sequence of turns with an active persona, whether
    each succeeded or failed, the log is the log before followed by
    one user turn and one assistant turn per submitted text, in order:
    earlier entries are untouched, and the log has grown by twice the
    number of turns (so from an empty log its length is twice that
    number). *)
Theorem log_append_only
    (turns : list (Page.world * jsstring)) (s : Page.State) :
  Page.has_persona s = true ->
  let s' := Session.submitTurns turns s in
  (exists replies,
      List.length replies = List.length turns
      /\ Page.chatHistory s'
         = Page.chatHistory s ++ Session.exchanges (map snd turns) replies)
  /\ List.length (Page.chatHistory s')
     = (List.length (Page.chatHistory s) + 2 * List.length turns)%nat
  /\ (Page.chatHistory s = [] ->
      List.length (Page.chatHistory s') = (2 * List.length turns)%nat).
Proof.
  intros H s'. subst s'.
  assert (Hlog : exists replies,
             List.length replies = List.length turns
             /\ Page.chatHistory (Session.submitTurns turns s)
                = Page.chatHistory s ++ Session.exchanges (map snd turns) replies).
  { revert s H. induction turns as [|[w userText] turns IH]; intros s H.
    - exists []. split; [reflexivity|]. cbn. now rewrite app_nil_r.
    - cbn [Session.submitTurns].
      destruct (submitTurn_appends w userText s H) as (reply & Hrun).
      destruct (Session.submitTurn w userText s) as [[s1 issued] r].
      cbn in Hrun. subst s1.
      destruct (IH (Session.with_log s
                      (Page.chatHistory s
                       ++ [Session.user_turn userText; Session.assistant_turn reply])) H)
        as (replies & Hlen & Heq).
      exists (reply :: replies). split; [cbn; now rewrite Hlen|].
      rewrite Heq. cbn. now rewrite <- app_assoc. }
  assert (Hgrow : forall texts replies,
             List.length replies = List.length texts ->
             List.length (Session.exchanges texts replies)
             = (2 * List.length texts)%nat).
  { induction texts as [|t texts IH]; intros [|x replies] Hlen;
      try discriminate; [reflexivity|].
    cbn in Hlen. injection Hlen as Hlen.
    unfold Session.exchanges in *. cbn. rewrite (IH replies Hlen). lia. }
  destruct Hlog as (replies & Hlen & Heq).
  assert (Hsize : List.length (Page.chatHistory (Session.submitTurns turns s))
                  = (List.length (Page.chatHistory s) + 2 * List.length turns)%nat).
  { rewrite Heq, length_app, Hgrow; rewrite length_map; [reflexivity|exact Hlen]. }
  split; [now exists replies|]. split; [exact Hsize|].
  intros Hempty. rewrite Hsize, Hempty. reflexivity.
Qed.

End Turns.

(** ** The prompt assembler *)

Section Assembler.
Context {ops : NumberOps}.

Lemma join_strings (sep : jsstring) (ts : list jsstring) :
  Array_join sep (map JString ts) = Some (join sep ts).
Proof.
  unfold Array_join.
  assert (H : all (map join_element (map JString ts)) = Some ts).
  { induction ts as [|t ts IH]; cbn; [reflexivity|].
    cbn in IH. now rewrite IH. }
  now rewrite H.
Qed.

Lemma assemble_spec (systemPrompt : jsstring) (h : list Chat.ChatMessage)
    (m : jsstring) :
  Chat.assemble systemPrompt h m
  = {| OpenRouter.Request.role := OpenRouter.Request.system;
       OpenRouter.Request.content := OpenRouter.Request.Text systemPrompt |}
    :: map Spec.turn_message h
    ++ [ {| OpenRouter.Request.role := OpenRouter.Request.user;
            OpenRouter.Request.content := OpenRouter.Request.Text m |} ].
Proof.
  reflexivity.
Qed.

(** [join(', ')] puts a comma and a space before each string but the
    first. *)
Lemma join_comma (ts : list jsstring) :
  join (str ", ") ts = Spec.comma_joined ts.
Proof.
  destruct ts as [|t rest]; [reflexivity|]. revert t.
  induction rest as [|r rest IH]; intros t.
  - cbn. now rewrite app_nil_r.
  - change (join (str ", ") (t :: r :: rest))
      with (t ++ str ", " ++ join (str ", ") (r :: rest)).
    rewrite IH. reflexivity.
Qed.

(** The route's template literal around the fields of a record is the
    fixed template with its places taken by them. *)
Lemma template_record (p : PersonaResult) :
  Chat.template (name p) (description p) (personality p) (background p)
                (join (str ", ") (traits p))
  = Spec.system_instruction p.
Proof.
  unfold Chat.template, Spec.system_instruction, Spec.fixed_template,
    Spec.blank_line.
  cbn [flat_map Spec.field_text].
  now rewrite join_comma, app_nil_r.
Qed.

Lemma build_messages_record (v : json) (p : PersonaResult)
    (h : list Chat.ChatMessage) (m : jsstring) :
  holds v p ->
  Chat.build_messages v h m tt = (tt, [], Returned (Spec.assembled p h m)).
Proof.
  intros (Hname & Hdescription & Hpersonality & Hbackground & Htraits).
  unfold Chat.build_messages, Chat.systemPrompt.
  rewrite Hname, Hdescription, Hpersonality, Hbackground, Htraits, join_strings.
  unfold filled, interpolate. cbn [ToString]. run.
  rewrite template_record. reflexivity.
Qed.

Lemma holds_truthy (v : json) (p : PersonaResult) : holds v p -> truthy v = true.
Proof.
  intros (Hname & _). destruct v; try discriminate. reflexivity.
Qed.

(** C7: for a persona record [p] (held by the decoded value [v]), a
    log [h] and a message [m], the assembled list is one system message
    whose content is the fixed template filled with [p]'s name,
    description, personality, background and comma-joined traits, then
    the turns of [h] in order with their roles, then [m] as a user
    message; and that list is what the route sends for a non-empty
    [m]. *)
Theorem prompt_assembly
    (v : json) (p : PersonaResult) (h : list Chat.ChatMessage) (m : jsstring) :
  holds v p ->
  Chat.build_messages v h m tt = (tt, [], Returned (Spec.assembled p h m))
  /\ (nonempty m = true ->
      forall u,
        fst (Chat.POST {| Chat.message := m; Chat.persona := v;
                          Chat.chatHistory := Some h |} u)
        = [ {| OpenRouter.Request.model := str "z-ai/glm-4.5-air:free";
               OpenRouter.Request.messages := Spec.assembled p h m;
               OpenRouter.Request.max_tokens := 500 |} ]).
Proof.
  intros Hv. split; [now apply build_messages_record|].
  intros Hm u. rewrite chat_requests. cbn [Chat.message Chat.persona Chat.chatHistory].
  rewrite Hm, (holds_truthy v p Hv). cbn [negb orb].
  now rewrite (build_messages_record v p h m Hv).
Qed.

End Assembler.

(** ** The caller-facing surface *)

Section Surface.
Context {ops : NumberOps}.

(** C9: with an input that is empty or all white space, and likewise
    with no persona, submitting through the chat box does nothing: the
    page (its log included) is as before and no request is issued, to
    the routes or to the provider. *)
Theorem empty_input_rejected (w : Page.world) (s : Page.State) :
  forallb is_space (Page.inputMessage s) = true \/ Page.persona s = None ->
  Session.submitInput w s = (s, [], Returned tt).
Proof.
  intros H. unfold Session.submitInput, Page.run, ChatBox.handleSendMessage.
  assert (Hguard :
            negb (nonempty (trim (Page.inputMessage s)))
            || negb (Page.has_persona s) || Page.isChatLoading s = true).
  { destruct H as [Hspace | Hnone].
    - rewrite trim_spaces; [reflexivity|].
      apply Forall_forall. now apply forallb_forall.
    - unfold Page.has_persona. rewrite Hnone. cbn. now rewrite orb_true_r. }
  rewrite Hguard. reflexivity.
Qed.

Lemma submitTurn_idle (w : Page.world) (userText : jsstring) (s : Page.State) :
  Page.has_persona s = false ->
  Session.submitTurn w userText s = (s, [], Returned tt).
Proof.
  unfold Page.has_persona, Session.submitTurn, Page.run, Home.handleSendMessage.
  destruct (Page.persona s) as [p|]; [|reflexivity].
  intros ->. reflexivity.
Qed.

(** C10: every request a turn sends to the provider carries the new
    user text twice, as its last two messages, both of role user: once
    as the last turn of the transmitted history and once as the new
    message; and with an active persona whose traits are an array, a
    non-empty text and the route in reach, such a request is sent. *)
Theorem user_text_sent_twice
    (w : Page.world) (userText : jsstring) (s : Page.State) :
  let sent := Session.to_provider (snd (fst (Session.submitTurn w userText s))) in
  let user_message :=
    {| OpenRouter.Request.role := OpenRouter.Request.user;
       OpenRouter.Request.content := OpenRouter.Request.Text userText |} in
  (forall req,
      In req sent ->
      exists systemPrompt,
        OpenRouter.Request.messages req
        = {| OpenRouter.Request.role := OpenRouter.Request.system;
             OpenRouter.Request.content := OpenRouter.Request.Text systemPrompt |}
          :: map Spec.turn_message (Page.chatHistory s)
          ++ [user_message; user_message])
  /\ (forall v p,
         Page.persona s = Some v -> holds v p ->
         nonempty userText = true -> Page.online w = true ->
         exists req, sent = [req]).
Proof.
  intros sent user_message. subst sent.
  destruct (Page.has_persona s) eqn:Hactive.
  2:{ rewrite (submitTurn_idle w userText s Hactive). cbn. split.
      - intros req [].
      - intros v p Hv Hholds. unfold Page.has_persona in Hactive.
        rewrite Hv, (holds_truthy v p Hholds) in Hactive. discriminate. }
  apply has_persona_inv in Hactive as (p & Hp & Ht).
  destruct (submitTurn_cases w userText s p Hp Ht) as (issued & Hsent & Hrun).
  assert (Hissued : snd (fst (Session.submitTurn w userText s)) = issued).
  { destruct Hrun as [(text & _ & _ & ->) | (e & _ & ->)]; reflexivity. }
  rewrite Hissued, Hsent. clear Hissued Hsent Hrun issued.
  rewrite chat_requests.
  cbn [Chat.request_json Session.turn_body Chat.message Chat.persona
       Chat.chatHistory].
  split.
  - destruct (Page.online w); [|intros req []].
    destruct (negb (nonempty userText) || negb (truthy (transmitted p)));
      [intros req []|].
    unfold Chat.build_messages.
    destruct (systemPrompt_pure (transmitted p)) as (r & Hr). run.
    rewrite Hr. destruct r as [systemPrompt|e]; run; [|intros req []].
    intros req [<-|[]].
    exists systemPrompt. cbn [OpenRouter.Request.messages].
    rewrite assemble_spec, map_app, <- app_assoc. reflexivity.
  - intros v record Hv Hholds Hm Hon.
    assert (v = p) by congruence. subst v.
    pose proof (holds_transmitted p record Hholds) as Hwire.
    rewrite Hon, Hm, (holds_truthy _ _ Hwire),
      (build_messages_record _ record _ _ Hwire).
    cbn [negb orb]. eexists. reflexivity.
Qed.

End Surface.

(* ================================================================== *)
(** * Concrete runs *)
(* ================================================================== *)

(** The amended C1 at the provider text [{"name":"Rocky"}]. *)
Lemma decoded_payload_accepted_unvalidated_run :
  present Rocky.key = true
  /\ Session.failed (Session.says Rocky.partial) = false
  /\ Session.response_text (Session.says Rocky.partial) = Some Rocky.partial
  /\ match_braces Rocky.partial = Some Rocky.partial
  /\ JSON_parse Rocky.partial = Some (JObject [ (str "name", JString (str "Rocky")) ])
  /\ snd (GeneratePersona.POST (Some Rocky.photo) Rocky.key (Session.says Rocky.partial))
     = GeneratePersona.Success (JObject [ (str "name", JString (str "Rocky")) ]).
Proof.
  repeat (split; [vm_compute; reflexivity|]).
  apply (proj1 (decoded_payload_accepted_unvalidated
                  Rocky.photo Rocky.key (Session.says Rocky.partial) Rocky.partial
                  eq_refl eq_refl eq_refl)
               Rocky.partial);
    vm_compute; reflexivity.
Defined.

(** C2 at the text of the specification. *)
Lemma extraction_round_trip_run :
  let text :=
    quoted "noise {'name':'Rocky','description':'a pebble','personality':'stoic','background':'fell from a cliff','traits':['calm','gritty','old','patient','silent']} trailing" in
  present Rocky.key = true
  /\ occurs (ch "{") (str "noise ") = false
  /\ occurs (ch "}") (str " trailing") = false
  /\ text = str "noise " ++ Rocky.payload ++ str " trailing"
  /\ match_braces text = Some Rocky.payload
  /\ exists v,
       snd (GeneratePersona.POST (Some Rocky.photo) Rocky.key (Session.says text))
       = GeneratePersona.Success v
       /\ holds v Rocky.record
       /\ get v (str "name") = Some (JString (str "Rocky"))
       /\ exists ts, get v (str "traits") = Some (JArray ts) /\ List.length ts = 5%nat.
Proof.
  intros text.
  assert (Htext : text = str "noise " ++ Rocky.payload ++ str " trailing")
    by (vm_compute; reflexivity).
  split; [reflexivity|]. split; [reflexivity|]. split; [reflexivity|].
  split; [exact Htext|]. rewrite Htext.
  exact (extraction_round_trip Rocky.photo Rocky.key (str "noise ") (str " trailing")
           eq_refl eq_refl eq_refl).
Defined.

(** C3 at a provider that answers 503. *)
Lemma fallback_on_upstream_failure_run :
  let w := Rocky.world_of true (OpenRouter.Replies 503 None) in
  Page.has_persona (ops := printed_literals) Rocky.chatting = true
  /\ Session.failed (Page.provider w) = true
  /\ (let '(s', _, r) :=
        Session.submitTurn (ops := printed_literals) w (str "hello") Rocky.chatting in
      Page.chatHistory s'
      = Page.chatHistory Rocky.chatting
        ++ [ {| Chat.role := Chat.user; Chat.content := str "hello" |};
             {| Chat.role := Chat.assistant;
                Chat.content :=
                  str "I" ++ [39] ++ str "m sorry, I" ++ [39]
                  ++ str "m having trouble responding right now. Please try again." |} ]
      /\ exists error, r = Thrown error).
Proof.
  split; [reflexivity|]. split; [reflexivity|].
  exact (fallback_on_upstream_failure (ops := printed_literals)
           (Rocky.world_of true (OpenRouter.Replies 503 None)) (str "hello")
           Rocky.chatting eq_refl eq_refl).
Defined.

(** C4 at a page that cannot reach its routes. *)
Lemma createPersona_failure_leaves_state_run :
  let run := Session.createPersona (ops := printed_literals)
               (Rocky.world_of false OpenRouter.Unreachable) Rocky.chatting in
  run = (fst (fst run), snd (fst run), snd run)
  /\ Session.succeeded (snd (fst run)) = false
  /\ Page.isLoading Rocky.chatting = false
  /\ fst (fst run) = Rocky.chatting.
Proof.
  split; [reflexivity|]. split; [reflexivity|]. split; [reflexivity|].
  apply (createPersona_failure_leaves_state (ops := printed_literals)
           (Rocky.world_of false OpenRouter.Unreachable) Rocky.chatting
           _ _ _ eq_refl eq_refl).
  reflexivity.
Defined.

(** C5 at the text of the specification, on a page with a log. *)
Lemma persona_replacement_resets_log_run :
  let w := Rocky.world_of true
             (Session.says (str "noise " ++ Rocky.payload ++ str " trailing")) in
  let run := Session.createPersona (ops := printed_literals) w Rocky.chatting in
  run = (fst (fst run), snd (fst run), snd run)
  /\ Session.succeeded (snd (fst run)) = true
  /\ Page.chatHistory Rocky.chatting <> []
  /\ Page.chatHistory (fst (fst run)) = []
  /\ exists text candidate v,
       Session.response_text (Page.provider w) = Some text
       /\ match_braces text = Some candidate
       /\ JSON_parse candidate = Some v
       /\ Page.persona (fst (fst run))
          = Some (transmitted (ops := printed_literals) v)
       /\ (forall k,
             get (transmitted (ops := printed_literals) v) k
             = option_map (transmitted (ops := printed_literals)) (get v k))
       /\ (forall p,
             holds v p -> holds (transmitted (ops := printed_literals) v) p).
Proof.
  split; [reflexivity|]. split; [reflexivity|]. split; [discriminate|].
  exact (persona_replacement_resets_log (ops := printed_literals)
           (Rocky.world_of true
              (Session.says (str "noise " ++ Rocky.payload ++ str " trailing")))
           Rocky.chatting _ _ _ eq_refl eq_refl).
Defined.

(** C6 at a turn that succeeds followed by one that fails. *)
Lemma log_append_only_run :
  let turns :=
    [ (Rocky.world_of true (Session.says (str "I sit.")), str "hello");
      (Rocky.world_of false OpenRouter.Unreachable, str "still there?") ] in
  let s' := Session.submitTurns (ops := printed_literals) turns Rocky.chatting in
  Page.has_persona (ops := printed_literals) Rocky.chatting = true
  /\ (exists replies,
         List.length replies = List.length turns
         /\ Page.chatHistory s'
            = Page.chatHistory Rocky.chatting
              ++ Session.exchanges (map snd turns) replies)
  /\ List.length (Page.chatHistory s')
     = (List.length (Page.chatHistory Rocky.chatting) + 2 * List.length turns)%nat
  /\ (Page.chatHistory Rocky.chatting = [] ->
      List.length (Page.chatHistory s') = (2 * List.length turns)%nat).
Proof.
  split; [reflexivity|].
  exact (log_append_only (ops := printed_literals)
           [ (Rocky.world_of true (Session.says (str "I sit.")), str "hello");
             (Rocky.world_of false OpenRouter.Unreachable, str "still there?") ]
           Rocky.chatting eq_refl).
Defined.

(** C7 at the Rocky record. *)
Lemma prompt_assembly_run :
  let h := Page.chatHistory Rocky.chatting in
  holds (to_json Rocky.record) Rocky.record
  /\ Chat.build_messages (ops := printed_literals) (to_json Rocky.record) h
       (str "hello") tt
     = (tt, [], Returned (Spec.assembled Rocky.record h (str "hello")))
  /\ (nonempty (str "hello") = true ->
      forall u,
        fst (Chat.POST (ops := printed_literals)
               {| Chat.message := str "hello"; Chat.persona := to_json Rocky.record;
                  Chat.chatHistory := Some h |} u)
        = [ {| OpenRouter.Request.model := str "z-ai/glm-4.5-air:free";
               OpenRouter.Request.messages :=
                 Spec.assembled Rocky.record h (str "hello");
               OpenRouter.Request.max_tokens := 500 |} ]).
Proof.
  split; [apply to_json_holds|].
  exact (prompt_assembly (ops := printed_literals) (to_json Rocky.record) Rocky.record
           (Page.chatHistory Rocky.chatting) (str "hello")
           (to_json_holds Rocky.record)).
Defined.

(** C9 at an input of three spaces. *)
Lemma empty_input_rejected_run :
  let s := {| Page.selectedImage := Page.selectedImage Rocky.chatting;
              Page.persona := Page.persona Rocky.chatting;
              Page.isLoading := false;
              Page.isChatLoading := false;
              Page.chatHistory := Page.chatHistory Rocky.chatting;
              Page.messages := Page.messages Rocky.chatting;
              Page.inputMessage := str "   " |} in
  let w := Rocky.world_of true (Session.says (str "I sit.")) in
  forallb is_space (Page.inputMessage s) = true
  /\ Session.submitInput (ops := printed_literals) w s = (s, [], Returned tt).
Proof.
  split; [reflexivity|].
  apply (empty_input_rejected (ops := printed_literals)).
  left. reflexivity.
Defined.

(** C10 at a turn that reaches the provider. *)
Lemma user_text_sent_twice_run :
  let w := Rocky.world_of true (Session.says (str "I sit.")) in
  let sent :=
    Session.to_provider
      (snd (fst (Session.submitTurn (ops := printed_literals) w (str "hello")
                   Rocky.chatting))) in
  let user_message :=
    {| OpenRouter.Request.role := OpenRouter.Request.user;
       OpenRouter.Request.content := OpenRouter.Request.Text (str "hello") |} in
  exists req systemPrompt,
    sent = [req]
    /\ OpenRouter.Request.messages req
       = {| OpenRouter.Request.role := OpenRouter.Request.system;
            OpenRouter.Request.content := OpenRouter.Request.Text systemPrompt |}
         :: map Spec.turn_message (Page.chatHistory Rocky.chatting)
         ++ [user_message; user_message].
Proof.
  intros w sent user_message.
  destruct (user_text_sent_twice (ops := printed_literals) w (str "hello") Rocky.chatting)
    as [Hall Hsome].
  destruct (Hsome (to_json Rocky.record) Rocky.record
                  eq_refl (to_json_holds Rocky.record) eq_refl eq_refl)
    as [req Hreq].
  destruct (Hall req) as [systemPrompt Hmessages].
  - fold sent in Hreq |- *. rewrite Hreq. now left.
  - exists req, systemPrompt. split; [exact Hreq|exact Hmessages].
Defined.

(* ================================================================== *)
(** * Further properties of the code *)
(* ================================================================== *)

(** ** The brace scan *)

Lemma occurs_true_iff (c : N) (s : jsstring) :
  occurs c s = false <-> Forall (fun x => x <> c) s.
Proof.
  split; [apply occurs_false|].
  unfold occurs. induction 1 as [|x s Hx _ IH]; [reflexivity|].
  cbn. rewrite IH, orb_false_r. apply N.eqb_neq. congruence.
Qed.

Lemma from_first_inv (c : N) (s t : jsstring) :
  from_first c s = Some t ->
  exists pre rest, s = pre ++ t /\ t = c :: rest /\ occurs c pre = false.
Proof.
  induction s as [|x s IH]; cbn; [discriminate|].
  destruct (x =? c) eqn:Hx.
  - intros H. injection H as <-. apply N.eqb_eq in Hx. subst x.
    exists [], s. auto.
  - intros H. destruct (IH H) as (pre & rest & -> & -> & Hpre).
    exists (x :: pre), rest. repeat split.
    unfold occurs in *. cbn. now rewrite N.eqb_sym, Hx, Hpre.
Qed.

Lemma through_last_none_inv (c : N) (s : jsstring) :
  through_last c s = None -> occurs c s = false.
Proof.
  induction s as [|x s IH]; cbn; [reflexivity|].
  destruct (through_last c s); [discriminate|].
  destruct (x =? c) eqn:Hx; [discriminate|].
  intros _. unfold occurs in *. cbn. now rewrite N.eqb_sym, Hx, IH.
Qed.

Lemma through_last_inv (c : N) (s t : jsstring) :
  through_last c s = Some t ->
  exists body post, s = t ++ post /\ t = body ++ [c] /\ occurs c post = false.
Proof.
  revert t. induction s as [|x s IH]; cbn; [discriminate|].
  intros t. destruct (through_last c s) as [t'|] eqn:Hrest.
  - intros H. injection H as <-.
    destruct (IH t' eq_refl) as (body & post & -> & -> & Hpost).
    exists (x :: body), post. auto.
  - destruct (x =? c) eqn:Hx; [|discriminate].
    intros H. injection H as <-. apply N.eqb_eq in Hx. subst x.
    exists [], s. repeat split. now apply through_last_none_inv.
Qed.

Lemma match_braces_inv (text m : jsstring) :
  match_braces text = Some m ->
  exists pre inner post,
    text = pre ++ m ++ post
    /\ m = ch "{" :: inner ++ [ch "}"]
    /\ occurs (ch "{") pre = false
    /\ occurs (ch "}") post = false.
Proof.
  unfold match_braces.
  destruct (from_first (ch "{") text) as [s|] eqn:Hfirst; [|discriminate].
  intros Hlast.
  destruct (from_first_inv _ _ _ Hfirst) as (pre & rest & -> & -> & Hpre).
  destruct (through_last_inv _ _ _ Hlast) as (body & post & Hs & -> & Hpost).
  destruct body as [|b body].
  - cbn in Hs. injection Hs as Hbrace _. vm_compute in Hbrace. discriminate.
  - cbn in Hs. injection Hs as <- Hrest.
    exists pre, body, post. rewrite Hrest. auto.
Qed.

(** X1.  The scan [/\{[\s\S]*\}/] finds [m] in [text] exactly when [m]
    runs from the first opening brace of [text] to its last closing
    brace: [m] opens and closes with a brace, no opening brace comes
    before it and no closing brace after it. *)
Theorem match_braces_spec (text m : jsstring) :
  match_braces text = Some m <->
  exists pre inner post,
    text = pre ++ m ++ post
    /\ m = ch "{" :: inner ++ [ch "}"]
    /\ occurs (ch "{") pre = false
    /\ occurs (ch "}") post = false.
Proof.
  split; [apply match_braces_inv|].
  intros (pre & inner & post & -> & -> & Hpre & Hpost).
  apply match_braces_noise; now apply occurs_false.
Qed.

(** ** Route [/api/generate-persona] *)

Lemma persona_route_issued (image : option File) (key : option jsstring)
    (u : OpenRouter.upstream) :
  fst (GeneratePersona.POST image key u)
  = match image with
    | Some file =>
        if present key
        then [GeneratePersona.request (GeneratePersona.data_url file)]
        else []
    | None => []
    end.
Proof.
  unfold GeneratePersona.POST.
  destruct image as [file|]; run; [|reflexivity].
  destruct (present key); run; [|reflexivity].
  destruct (complete_issued
              (GeneratePersona.request (GeneratePersona.data_url file)) u)
    as (r & ->).
  destruct r as [text|e]; run; [|reflexivity].
  destruct (match_braces text) as [candidate|]; run; [|reflexivity].
  destruct (JSON_parse candidate); reflexivity.
Qed.

Lemma persona_route_answers (file : File) (key : option jsstring)
    (u : OpenRouter.upstream) :
  (exists v, snd (GeneratePersona.POST (Some file) key u) = GeneratePersona.Success v)
  \/ snd (GeneratePersona.POST (Some file) key u)
     = GeneratePersona.ServerError (str "Failed to generate persona").
Proof.
  unfold GeneratePersona.POST. run.
  destruct (present key); run; [|now right].
  destruct (complete_issued
              (GeneratePersona.request (GeneratePersona.data_url file)) u)
    as (r & ->).
  destruct r as [text|e]; run; [|now right].
  destruct (match_braces text) as [candidate|]; run; [|now right].
  destruct (JSON_parse candidate) as [v|]; run; [left; now exists v|now right].
Qed.

(** X2.  The persona route contacts the provider at most once, and not
    at all without an image or without a key: a missing image is
    answered 400, a missing or empty key 500, whatever the provider
    would have said; with an image the answer is a success or the one
    fixed failure, never anything else. *)
Theorem persona_route_guards (image : option File) (key : option jsstring)
    (u : OpenRouter.upstream) :
  let issued := fst (GeneratePersona.POST image key u) in
  let response := snd (GeneratePersona.POST image key u) in
  (issued = [] \/ exists file,
      image = Some file /\ present key = true
      /\ issued = [GeneratePersona.request (GeneratePersona.data_url file)])
  /\ (image = None ->
      issued = []
      /\ response = GeneratePersona.BadRequest (str "No image file provided"))
  /\ (forall file, image = Some file -> present key = false ->
      issued = []
      /\ response = GeneratePersona.ServerError (str "Failed to generate persona"))
  /\ (forall file, image = Some file ->
      (exists v, response = GeneratePersona.Success v)
      \/ response = GeneratePersona.ServerError (str "Failed to generate persona")).
Proof.
  intros issued response. subst issued response.
  rewrite persona_route_issued.
  split; [|split; [|split]].
  - destruct image as [file|]; [|now left].
    destruct (present key) eqn:Hkey; [|now left].
    right. now exists file.
  - intros ->. split; reflexivity.
  - intros file -> Hkey. rewrite Hkey. split; [reflexivity|].
    unfold GeneratePersona.POST. run. rewrite Hkey. reflexivity.
  - intros file ->. apply persona_route_answers.
Qed.

(** X3.  Noise around any brace-delimited text is ignored by the
    persona route, not only around one payload: with no opening brace
    before it and no closing brace after it, the route issues the same
    request and gives the same answer as for the text alone. *)
Theorem persona_route_ignores_noise
    (image : File) (key : option jsstring) (pre inner post : jsstring) :
  present key = true ->
  occurs (ch "{") pre = false ->
  occurs (ch "}") post = false ->
  let candidate := ch "{" :: inner ++ [ch "}"] in
  GeneratePersona.POST (Some image) key (Session.says (pre ++ candidate ++ post))
  = GeneratePersona.POST (Some image) key (Session.says candidate).
Proof.
  intros Hkey Hpre Hpost candidate.
  assert (Hnoisy : match_braces (pre ++ candidate ++ post) = Some candidate)
    by (apply match_braces_noise; now apply occurs_false).
  assert (Hbare : match_braces candidate = Some candidate).
  { rewrite <- (app_nil_r candidate) at 1.
    apply (match_braces_noise [] inner []); constructor. }
  assert (Hn1 : nonempty (pre ++ candidate ++ post) = true)
    by (now apply nonempty_app).
  destruct (says_not_failed _ Hn1) as [Hu1 Hr1].
  destruct (says_not_failed candidate eq_refl) as [Hu2 Hr2].
  apply injective_projections.
  - now rewrite !persona_route_issued.
  - rewrite (generate_persona_on_text image key _ _ Hkey Hu1 Hr1).
    rewrite (generate_persona_on_text image key _ _ Hkey Hu2 Hr2).
    now rewrite Hnoisy, Hbare.
Qed.

(** ** What a decoded candidate is *)

Lemma object_rooted_push (f : frame) (stack : list frame) :
  object_rooted stack = true -> object_rooted (f :: stack) = true.
Proof.
  destruct stack as [|g up]; [discriminate|]. intros H.
  destruct f; exact H.
Qed.

Lemma deliver_rooted (v : json) (stack : list frame) :
  object_rooted stack = true -> building_object (deliver v stack).
Proof.
  destruct stack as [|f [|g up]]; [discriminate| |].
  - destruct f; [discriminate|]. intros _. now left.
  - intros H. destruct f; cbn [deliver building_object]; [exact H|right; exact H].
Qed.

Lemma deliver_object (members : list (jsstring * json)) (stack : list frame) :
  stack = [] \/ object_rooted stack = true ->
  building_object (deliver (JObject members) stack).
Proof.
  intros [-> | H]; [now exists members|now apply deliver_rooted].
Qed.

Lemma value_token_rooted (stack : list frame) (t : token) (st : pstate) :
  object_rooted stack = true ->
  value_token stack t = Some st -> building_object st.
Proof.
  intros H. destruct t; cbn; intros Hst; try discriminate;
    injection Hst as <-; try (now apply deliver_rooted); cbn; auto.
Qed.

Lemma parse_step_building (st st' : pstate) (t : token) :
  building_object st -> parse_step st t = Some st' -> building_object st'.
Proof.
  unfold parse_step.
  destruct st as [stack|stack|done stack|stack|done stack|done k stack|done stack|v];
    cbn [building_object]; intros H.
  - apply value_token_rooted, H.
  - destruct t;
      try (apply value_token_rooted; now apply object_rooted_push).
    intros Hst. injection Hst as <-. now apply deliver_rooted.
  - destruct t; intros Hst; try discriminate; injection Hst as <-.
    + now apply deliver_rooted.
    + cbn [building_object]. now apply object_rooted_push.
  - destruct t; intros Hst; try discriminate; injection Hst as <-.
    + now apply deliver_object.
    + exact H.
  - destruct t; intros Hst; try discriminate; injection Hst as <-. exact H.
  - destruct t; intros Hst; try discriminate; injection Hst as <-.
    cbn [building_object].
    destruct H as [-> | H]; [reflexivity|now apply object_rooted_push].
  - destruct t; intros Hst; try discriminate; injection Hst as <-.
    + now apply deliver_object.
    + exact H.
  - destruct t; discriminate.
Qed.

Lemma parse_building (ts : list token) (st : pstate) (v : json) :
  building_object st -> parse st ts = Some v -> exists members, v = JObject members.
Proof.
  revert st. induction ts as [|t ts IH]; intros st H; cbn.
  - destruct st; try discriminate. intros Hv. injection Hv as <-. exact H.
  - destruct (parse_step st t) as [st'|] eqn:Hstep; [|discriminate].
    apply IH. exact (parse_step_building st st' t H Hstep).
Qed.

(** A text that opens with a brace decodes, if at all, to an object. *)
Lemma braced_text_decodes_to_object (rest : jsstring) (v : json) :
  JSON_parse (ch "{" :: rest) = Some v -> exists members, v = JObject members.
Proof.
  unfold JSON_parse. cbn [lex].
  change (lex_step LStart (ch "{")) with (Some (LStart, [TLBrace])).
  cbv beta iota.
  destruct (lex LStart rest) as [ts|]; cbn [option_map app]; [|discriminate].
  change (parse (PValue []) (TLBrace :: ts)) with (parse (PObjectOpen []) ts).
  apply parse_building. now left.
Qed.

(** X4.  The persona of a success response is always an object: the
    candidate the route decodes opens with a brace, and such a text
    decodes to nothing else.  No string, number, array or [null] is
    ever handed to the page as a persona. *)
Theorem success_persona_is_object
    (image : option File) (key : option jsstring) (u : OpenRouter.upstream)
    (v : json) :
  snd (GeneratePersona.POST image key u) = GeneratePersona.Success v ->
  exists members, v = JObject members.
Proof.
  intros Hpost.
  apply generate_persona_success in Hpost
    as (text & candidate & _ & _ & Hmatch & Hparse).
  apply match_braces_inv in Hmatch as (pre & inner & post & _ & -> & _).
  exact (braced_text_decodes_to_object _ v Hparse).
Qed.

(** ** [generatePersona] and [handleImageUpload] *)

Lemma persona_route_issues_at_most_one
    (image : option File) (key : option jsstring) (u : OpenRouter.upstream) :
  (List.length (fst (GeneratePersona.POST image key u)) <= 1)%nat.
Proof.
  rewrite persona_route_issued.
  destruct image; [destruct (present key)|]; cbn; lia.
Qed.

Lemma success_object (image : option File) (key : option jsstring)
    (u : OpenRouter.upstream) (v : json) :
  snd (GeneratePersona.POST image key u) = GeneratePersona.Success v ->
  exists members, v = JObject members.
Proof.
  intros Hpost.
  apply generate_persona_success in Hpost
    as (text & candidate & _ & _ & Hmatch & Hparse).
  apply match_braces_inv in Hmatch as (pre & inner & post & _ & -> & _).
  exact (braced_text_decodes_to_object _ v Hparse).
Qed.

Section HomePersona.
Context {ops : NumberOps}.

(** X5.  Every run of [generatePersona] ends normally and raises
    exactly one toast; it posts to its route at most once, and the
    route asks the provider at most once: nothing is retried.  Without
    a selected image it only raises its toast: no request leaves and
    the page is as before. *)
Theorem generatePersona_reports_once (w : Page.world) (s : Page.State) :
  let s' := fst (fst (Session.createPersona w s)) in
  let issued := snd (fst (Session.createPersona w s)) in
  snd (Session.createPersona w s) = Returned tt
  /\ (exists toast, Observed.toasts issued = [toast])
  /\ (List.length (Observed.to_persona_route issued) <= 1)%nat
  /\ (List.length (Session.to_provider issued) <= 1)%nat
  /\ (present (Page.selectedImage s) = false ->
      s' = s
      /\ issued = [Page.toast_error (str "Please upload an image first")]).
Proof.
  unfold Session.createPersona, Page.run, Home.generatePersona.
  destruct (present (Page.selectedImage s)) eqn:Himage; cbn [negb].
  2:{ cbn. repeat split; eauto. }
  unfold Home.post_generate_persona, Page.setIsLoading, Page.setPersona,
    Page.setChatHistory.
  destruct (Page.picked w) as [image|]; run.
  2:{ cbn. repeat split; eauto; discriminate. }
  destruct (Page.online w); run.
  2:{ cbn. repeat split; eauto; discriminate. }
  pose proof (persona_route_issues_at_most_one
                (Some image) (Page.API_KEY w) (Page.provider w)) as Hone.
  destruct (GeneratePersona.POST (Some image) (Page.API_KEY w) (Page.provider w))
    as [reqs response].
  cbn [fst] in Hone. run. rewrite emit_all_run. run.
  destruct response as [v|e|e]; run; cbn [fst snd];
    (split; [reflexivity|]);
    (split; [cbn [Observed.toasts filter Observed.is_toast];
             change (filter Observed.is_toast ?l) with (Observed.toasts l);
             autorewrite with observed; cbn; eauto|]);
    (split; [cbn [Observed.to_persona_route flat_map app];
             change (flat_map _ ?l) with (Observed.to_persona_route l);
             autorewrite with observed; cbn; lia|]);
    (split; [cbn [Session.to_provider flat_map app];
             change (flat_map _ ?l) with (Session.to_provider l);
             autorewrite with observed; cbn;
             autorewrite with observed; exact Hone|]);
    discriminate.
Qed.

(** X6.  [generatePersona] installs a persona the page cannot show:
    after a run that succeeded, the render of [Home] that follows goes
    through when the decoded value has an array under [traits], and
    throws a TypeError when [traits] is missing or is anything else,
    the toast of success notwithstanding. *)
Theorem accepted_persona_may_not_render
    (w : Page.world) (s s' : Page.State) (issued : list Page.event)
    (r : outcome unit) :
  Session.createPersona w s = (s', issued, r) ->
  Session.succeeded issued = true ->
  exists text candidate v,
    Session.response_text (Page.provider w) = Some text
    /\ match_braces text = Some candidate
    /\ JSON_parse candidate = Some v
    /\ ((exists items, get v (str "traits") = Some (JArray items)) ->
        Home.render s' = Returned tt)
    /\ ((forall items, get v (str "traits") <> Some (JArray items)) ->
        Home.render s' = Thrown TypeError).
Proof.
  intros Hrun Hyes.
  destruct (createPersona_cases w s)
    as [(_ & issued' & Hno & Heq) | [(issued' & Hno & Heq) |
        (issued' & image & v & _ & _ & Hpost & _ & Heq)]];
    rewrite Heq in Hrun; injection Hrun as <- <- <-; [congruence..|].
  destruct (success_object _ _ _ _ Hpost) as (members & Hobject).
  apply generate_persona_success in Hpost
    as (text & candidate & _ & Htext & Hmatch & Hparse).
  exists text, candidate, v.
  split; [exact Htext|]. split; [exact Hmatch|]. split; [exact Hparse|].
  unfold Home.render. cbn [Page.persona].
  assert (Htruthy : truthy (transmitted v) = true) by (now subst v).
  rewrite Htruthy, get_transmitted. split.
  - intros (items & ->). reflexivity.
  - intros Hnone.
    destruct (get v (str "traits")) as [[| |n| |items|]|]; try reflexivity.
    + cbn. now destruct (Number_toJSON n).
    + now destruct (Hnone items).
Qed.

(** X7.  Selecting a new image and then failing to generate its persona
    leaves the page without a persona and with an empty log: what the
    image before had is gone already when the upload is read, and the
    failed run does not bring it back. *)
Theorem upload_then_failed_generation
    (file : File) (dataUrl : jsstring) (w : Page.world) (s : Page.State) :
  eqb (firstn 6 (type file)) (str "image/") = true ->
  let uploaded := fst (fst (Home.handleImageUpload (Some file) dataUrl s)) in
  let s' := fst (fst (Session.createPersona w uploaded)) in
  let issued := snd (fst (Session.createPersona w uploaded)) in
  Session.succeeded issued = false ->
  Page.persona s' = None
  /\ Page.chatHistory s' = []
  /\ Page.selectedImage s' = Some dataUrl.
Proof.
  intros Himage uploaded s' issued. subst s' issued uploaded.
  rewrite (image_upload_clears file dataUrl s Himage). cbn [fst].
  match goal with
  | |- context [Session.createPersona w ?u] =>
      destruct (createPersona_cases w u)
        as [(_ & issued' & _ & ->) | [(issued' & _ & ->) |
            (issued' & image & v & _ & _ & _ & Hyes & ->)]]
  end; cbn [fst snd]; intros Hno; [auto | auto | congruence].
Qed.

End HomePersona.

(** ** Route [/api/chat] *)

Section ChatRoute.
Context {ops : NumberOps}.

Lemma chat_route_issues_at_most_one (body : Chat.ChatRequest)
    (u : OpenRouter.upstream) :
  (List.length (fst (Chat.POST body u)) <= 1)%nat.
Proof.
  rewrite chat_requests.
  destruct (negb (nonempty (Chat.message body)) || negb (truthy (Chat.persona body)));
    [cbn; lia|].
  destruct (Chat.build_messages _ _ _ tt) as [[? ?] [messages|e]]; cbn; lia.
Qed.

Lemma chat_route_rejects (body : Chat.ChatRequest) (u : OpenRouter.upstream) :
  negb (nonempty (Chat.message body)) || negb (truthy (Chat.persona body)) = true ->
  Chat.POST body u
  = ([], Chat.BadRequest (str "Message and persona are required")).
Proof. intros H. unfold Chat.POST. now rewrite H. Qed.

Lemma chat_route_answers (body : Chat.ChatRequest) (u : OpenRouter.upstream) :
  negb (nonempty (Chat.message body)) || negb (truthy (Chat.persona body)) = false ->
  (exists text, snd (Chat.POST body u) = Chat.Success text)
  \/ snd (Chat.POST body u) = Chat.ServerError (str "Failed to generate response").
Proof.
  intros H. unfold Chat.POST, Chat.build_messages. rewrite H.
  destruct (systemPrompt_pure (Chat.persona body)) as (r & Hr). run.
  rewrite Hr. destruct r as [systemPrompt|e]; run; [|now right].
  match goal with
  | |- context [OpenRouter.complete ?req u tt] =>
      destruct (complete_issued req u) as (r & ->)
  end.
  destruct r as [text|e]; run; [left; now exists text|now right].
Qed.

(** X8.  The chat route answers 400 exactly when the message is empty
    or the persona is falsy, and then it asks the provider nothing;
    for any other body the answer is a success or the one fixed
    failure, after at most one request. *)
Theorem chat_route_guard (body : Chat.ChatRequest) (u : OpenRouter.upstream) :
  let issued := fst (Chat.POST body u) in
  let response := snd (Chat.POST body u) in
  (Chat.status response = 400
   <-> nonempty (Chat.message body) = false \/ truthy (Chat.persona body) = false)
  /\ (Chat.status response = 400 ->
      issued = []
      /\ response = Chat.BadRequest (str "Message and persona are required"))
  /\ (Chat.status response <> 400 ->
      (exists text, response = Chat.Success text)
      \/ response = Chat.ServerError (str "Failed to generate response"))
  /\ (List.length issued <= 1)%nat.
Proof.
  intros issued response. subst issued response.
  destruct (negb (nonempty (Chat.message body))
            || negb (truthy (Chat.persona body))) eqn:Hguard.
  - rewrite (chat_route_rejects body u Hguard). cbn [fst snd Chat.status].
    split; [|split; [|split]].
    + split; [|reflexivity].
      intros _. apply orb_true_iff in Hguard as [H|H];
        apply negb_true_iff in H; auto.
    + intros _. split; reflexivity.
    + intros H. now destruct H.
    + cbn. lia.
  - pose proof (chat_route_answers body u Hguard) as Hanswer.
    apply orb_false_iff in Hguard as [Hm Hp].
    apply negb_false_iff in Hm, Hp.
    assert (Hstatus : Chat.status (snd (Chat.POST body u)) <> 400)
      by (destruct Hanswer as [(text & ->) | ->]; discriminate).
    split; [|split; [|split]].
    + split; [intros H; now destruct Hstatus|intros [H|H]; congruence].
    + intros H. now destruct Hstatus.
    + intros _. exact Hanswer.
    + apply chat_route_issues_at_most_one.
Qed.

(** The route on a persona whose template fills and a usable provider
    answer. *)
Lemma chat_on_text (body : Chat.ChatRequest) (u : OpenRouter.upstream)
    (messages : list OpenRouter.Request.Message) (text : jsstring) :
  nonempty (Chat.message body) = true ->
  truthy (Chat.persona body) = true ->
  Chat.build_messages (Chat.persona body)
    (match Chat.chatHistory body with Some h => h | None => [] end)
    (Chat.message body) tt = (tt, [], Returned messages) ->
  Session.failed u = false ->
  Session.response_text u = Some text ->
  Chat.POST body u
  = ([ {| OpenRouter.Request.model := str "z-ai/glm-4.5-air:free";
          OpenRouter.Request.messages := messages;
          OpenRouter.Request.max_tokens := 500 |} ],
     Chat.Success text).
Proof.
  intros Hm Hp Hbuild Hu Htext.
  unfold Chat.POST. rewrite Hm, Hp. cbn [negb orb]. run. rewrite Hbuild. run.
  match goal with
  | |- context [OpenRouter.complete ?req u tt] =>
      destruct (complete_answered req u Hu) as (text' & Htext' & _ & ->)
  end.
  assert (text' = text) by congruence. subst text'. reflexivity.
Qed.

(** X9.  A success response of the chat route carries the text of the
    provider's first choice, unchanged and never empty, and comes after
    exactly one request; the provider call did not fail. *)
Theorem chat_success_carries_provider_text
    (body : Chat.ChatRequest) (u : OpenRouter.upstream) (text : jsstring) :
  snd (Chat.POST body u) = Chat.Success text ->
  Session.response_text u = Some text
  /\ nonempty text = true
  /\ Session.failed u = false
  /\ exists request, fst (Chat.POST body u) = [request].
Proof.
  intros Hpost.
  destruct (chat_success body u text Hpost) as [Hu Htext].
  split; [exact Htext|]. split; [|split; [exact Hu|]].
  - unfold Session.failed in Hu. destruct u as [|status reply]; [discriminate|].
    apply orb_false_iff in Hu as [_ Hu]. rewrite Htext in Hu.
    cbn [present] in Hu. destruct (nonempty text); [reflexivity|discriminate].
  - revert Hpost. rewrite chat_requests. unfold Chat.POST.
    destruct (negb (nonempty (Chat.message body))
              || negb (truthy (Chat.persona body))); [discriminate|].
    run.
    destruct (Chat.build_messages _ _ _ tt) as [[[] issued] [messages|e]];
      [|discriminate].
    intros _. eexists. reflexivity.
Qed.

(** A persona whose [traits] is not an array stops the template. *)
Lemma systemPrompt_needs_traits (persona : json) :
  (forall items, get persona (str "traits") <> Some (JArray items)) ->
  exists e, Chat.systemPrompt persona tt = (tt, [], Thrown e).
Proof.
  intros Htraits. unfold Chat.systemPrompt, filled.
  destruct (interpolate (get persona (str "name"))); run; eauto.
  destruct (interpolate (get persona (str "description"))); run; eauto.
  destruct (interpolate (get persona (str "personality"))); run; eauto.
  destruct (interpolate (get persona (str "background"))); run; eauto.
  destruct (get persona (str "traits")) as [[| | | |ts|]|]; run; eauto.
  now destruct (Htraits ts).
Qed.

Lemma chat_without_traits (body : Chat.ChatRequest) (u : OpenRouter.upstream) :
  (forall items, get (Chat.persona body) (str "traits") <> Some (JArray items)) ->
  nonempty (Chat.message body) = true ->
  truthy (Chat.persona body) = true ->
  Chat.POST body u = ([], Chat.ServerError (str "Failed to generate response")).
Proof.
  intros Htraits Hm Hp.
  destruct (systemPrompt_needs_traits _ Htraits) as (e & He).
  unfold Chat.POST, Chat.build_messages. rewrite Hm, Hp. cbn [negb orb]. run.
  now rewrite He.
Qed.

(** X10.  The chat route cannot answer for a persona whose [traits] is
    not an array, though the persona route lets such a persona through:
    for a non-empty message and a truthy persona it stops at its
    template, asks the provider nothing and answers 500, whatever the
    provider would have said.  So a success response is only ever
    given for a persona with an array under [traits]. *)
Theorem chat_route_needs_traits (body : Chat.ChatRequest) (u : OpenRouter.upstream) :
  (nonempty (Chat.message body) = true ->
   truthy (Chat.persona body) = true ->
   (forall items, get (Chat.persona body) (str "traits") <> Some (JArray items)) ->
   Chat.POST body u = ([], Chat.ServerError (str "Failed to generate response")))
  /\ (forall text,
         snd (Chat.POST body u) = Chat.Success text ->
         exists items, get (Chat.persona body) (str "traits") = Some (JArray items)).
Proof.
  split; [intros Hm Hp Htraits; now apply chat_without_traits|].
  intros text Hpost.
  destruct (negb (nonempty (Chat.message body))
            || negb (truthy (Chat.persona body))) eqn:Hguard.
  { rewrite (chat_route_rejects body u Hguard) in Hpost. discriminate. }
  apply orb_false_iff in Hguard as [Hm Hp].
  apply negb_false_iff in Hm, Hp.
  destruct (get (Chat.persona body) (str "traits")) as [[| | | |items|]|] eqn:Htraits;
    try (rewrite (chat_without_traits body u) in Hpost;
         [discriminate | rewrite Htraits; discriminate | exact Hm | exact Hp]).
  now exists items.
Qed.

End ChatRoute.

(** ** [handleSendMessage] of [Home] *)

Section HomeTurns.
Context {ops : NumberOps}.

(** X11.  With a persona record in place, a non-empty text, the route
    in reach and a provider call that does not fail, a turn succeeds:
    it ends normally, the log gains the user turn and then the
    provider's text as the assistant turn, and the one request the
    provider got is the assembled prompt over the log with the new
    user turn already on it. *)
Theorem turn_succeeds
    (w : Page.world) (userText text : jsstring) (s : Page.State)
    (v : json) (p : PersonaResult) :
  Page.persona s = Some v ->
  holds v p ->
  nonempty userText = true ->
  Page.online w = true ->
  Session.failed (Page.provider w) = false ->
  Session.response_text (Page.provider w) = Some text ->
  let '(s', issued, r) := Session.submitTurn w userText s in
  r = Returned tt
  /\ s' = Session.with_log s
            (Page.chatHistory s
             ++ [Session.user_turn userText; Session.assistant_turn text])
  /\ Session.to_provider issued
     = [ {| OpenRouter.Request.model := str "z-ai/glm-4.5-air:free";
            OpenRouter.Request.messages :=
              Spec.assembled p
                (Page.chatHistory s ++ [Session.user_turn userText]) userText;
            OpenRouter.Request.max_tokens := 500 |} ].
Proof.
  intros Hv Hholds Hm Hon Hu Htext.
  pose proof (holds_truthy v p Hholds) as Htruthy.
  pose proof (holds_transmitted v p Hholds) as Hwire.
  assert (Hpost :
            Chat.POST (Chat.request_json (Session.turn_body s v userText))
              (Page.provider w)
            = ([ {| OpenRouter.Request.model := str "z-ai/glm-4.5-air:free";
                    OpenRouter.Request.messages :=
                      Spec.assembled p
                        (Page.chatHistory s ++ [Session.user_turn userText])
                        userText;
                    OpenRouter.Request.max_tokens := 500 |} ],
               Chat.Success text)).
  { apply chat_on_text; auto.
    - exact (holds_truthy _ p Hwire).
    - now apply build_messages_record. }
  destruct (submitTurn_cases w userText s v Hv Htruthy)
    as (issued & Hsent & [(text' & _ & Hpost' & ->) | (e & [Hoff|Hfail] & _)]).
  - rewrite Hpost in Hpost'. injection Hpost' as <-.
    rewrite Hsent, Hon, Hpost. auto.
  - congruence.
  - destruct (Hfail text). now rewrite Hpost.
Qed.

(** X12.  A turn touches the log, the bubbles drawn from it and the
    busy flag, and nothing else: the persona, the selected image, the
    persona busy flag and the input field are as before.  With an
    active persona, when the turn is over (whether it succeeded or
    threw) the chat busy flag is clear and the chat box shows the log,
    one bubble per entry in order, whatever it showed before; with
    none, the page is as before and nothing is issued. *)
Theorem turn_frame (w : Page.world) (userText : jsstring) (s : Page.State) :
  let s' := fst (fst (Session.submitTurn w userText s)) in
  let issued := snd (fst (Session.submitTurn w userText s)) in
  Page.persona s' = Page.persona s
  /\ Page.selectedImage s' = Page.selectedImage s
  /\ Page.isLoading s' = Page.isLoading s
  /\ Page.inputMessage s' = Page.inputMessage s
  /\ (Page.has_persona s = true ->
      Page.isChatLoading s' = false
      /\ Page.messages s'
         = map (fun m => {| Page.text := Chat.content m;
                            Page.sender := match Chat.role m with
                                           | Chat.user => Page.user
                                           | Chat.assistant => Page.persona_sender
                                           end |})
               (Page.chatHistory s'))
  /\ (Page.has_persona s = false -> s' = s /\ issued = []).
Proof.
  intros s' issued. subst s' issued.
  destruct (Page.has_persona s) eqn:Hactive.
  - destruct (submitTurn_appends w userText s Hactive) as (reply & ->).
    repeat split; try reflexivity; discriminate.
  - rewrite (submitTurn_idle w userText s Hactive).
    repeat split; try reflexivity; discriminate.
Qed.

(** X13.  A turn with an active persona posts to the chat route exactly
    once, with the new text, the persona as the page holds it and the
    log with the new user turn already on it; the provider is asked at
    most once, and no toast is raised: nothing is retried. *)
Theorem turn_posts_once
    (w : Page.world) (userText : jsstring) (s : Page.State) (v : json) :
  Page.persona s = Some v ->
  truthy v = true ->
  let issued := snd (fst (Session.submitTurn w userText s)) in
  Observed.to_chat_route issued
  = [ {| Chat.message := userText;
         Chat.persona := v;
         Chat.chatHistory :=
           Some (Page.chatHistory s
                 ++ [ {| Chat.role := Chat.user; Chat.content := userText |} ]) |} ]
  /\ (List.length (Session.to_provider issued) <= 1)%nat
  /\ Observed.toasts issued = [].
Proof.
  intros Hv Htruthy issued. subst issued.
  destruct (submitTurn_posts w userText s v Hv Htruthy) as [Hposts Htoasts].
  split; [exact Hposts|]. split; [|exact Htoasts].
  destruct (submitTurn_cases w userText s v Hv Htruthy) as (issued & Hsent & Hrun).
  assert (Hissued : snd (fst (Session.submitTurn w userText s)) = issued)
    by (destruct Hrun as [(text & _ & _ & ->) | (e & _ & ->)]; reflexivity).
  rewrite Hissued, Hsent.
  destruct (Page.online w); [apply chat_route_issues_at_most_one|cbn; lia].
Qed.

Lemma replies_nonempty_app (xs ys : list Chat.ChatMessage) :
  Observed.replies_nonempty (xs ++ ys)
  = Observed.replies_nonempty xs && Observed.replies_nonempty ys.
Proof. apply forallb_app. Qed.

Lemma submitTurn_reply_nonempty (w : Page.world) (userText : jsstring)
    (s : Page.State) :
  Page.has_persona s = true ->
  exists reply,
    nonempty reply = true
    /\ fst (fst (Session.submitTurn w userText s))
       = Session.with_log s
           (Page.chatHistory s
            ++ [Session.user_turn userText; Session.assistant_turn reply]).
Proof.
  intros H. apply has_persona_inv in H as (p & Hp & Ht).
  destruct (submitTurn_cases w userText s p Hp Ht)
    as (issued & _ & [(text & _ & Hpost & ->) | (e & _ & ->)]).
  - exists text. split; [|reflexivity].
    destruct (chat_success _ _ _ Hpost) as [Hu Htext].
    unfold Session.failed in Hu.
    destruct (Page.provider w) as [|status reply]; [discriminate|].
    apply orb_false_iff in Hu as [_ Hu]. rewrite Htext in Hu.
    cbn [present] in Hu. destruct (nonempty text); [reflexivity|discriminate].
  - exists Page.apology. split; reflexivity.
Qed.

(** X14.  No turn ever puts an empty assistant entry on the log: a log
    whose assistant turns are all non-empty stays so through any
    sequence of turns, since a reply is a non-empty provider text or
    the apology. *)
Theorem replies_stay_nonempty
    (turns : list (Page.world * jsstring)) (s : Page.State) :
  Observed.replies_nonempty (Page.chatHistory s) = true ->
  Observed.replies_nonempty (Page.chatHistory (Session.submitTurns turns s)) = true.
Proof.
  revert s. induction turns as [|[w userText] turns IH]; intros s Hlog; [exact Hlog|].
  cbn [Session.submitTurns].
  destruct (Page.has_persona s) eqn:Hactive.
  - destruct (submitTurn_reply_nonempty w userText s Hactive)
      as (reply & Hreply & Hrun).
    destruct (Session.submitTurn w userText s) as [[s1 issued] r].
    cbn [fst] in Hrun. subst s1. apply IH.
    cbn [Session.with_log Page.chatHistory].
    rewrite replies_nonempty_app, Hlog. cbn. now rewrite Hreply.
  - rewrite (submitTurn_idle w userText s Hactive). now apply IH.
Qed.

End HomeTurns.

(** ** The chat box *)





Section ChatBoxTurns.
Context {ops : NumberOps}.

(** X15.  When the chat box takes a submission up (some code unit of
    the input is not white space, a persona is active, no turn is in
    flight), it never throws, it empties the input field, and the user
    turn it puts on the log carries the input exactly as typed, white
    space at its ends included; one assistant turn follows.  Once the
    render that follows is done the box shows the log and nothing
    else: the bubbles of the earlier entries, the input as typed, and
    the reply once.  The apology bubble the box adds of its own when
    the turn failed goes with the redraw, so a failed turn shows one
    apology, not two. *)
Theorem chat_box_sends_input_as_typed (w : Page.world) (s : Page.State) :
  nonempty (trim (Page.inputMessage s)) = true ->
  Page.has_persona s = true ->
  Page.isChatLoading s = false ->
  let '(s', issued, r) := Session.submitInput w s in
  r = Returned tt
  /\ Page.inputMessage s' = []
  /\ (exists reply,
         Page.chatHistory s'
         = Page.chatHistory s
           ++ [ {| Chat.role := Chat.user; Chat.content := Page.inputMessage s |};
                {| Chat.role := Chat.assistant; Chat.content := reply |} ]
         /\ Page.messages s'
            = map Page.bubble_of (Page.chatHistory s)
              ++ [ {| Page.text := Page.inputMessage s; Page.sender := Page.user |};
                   {| Page.text := reply; Page.sender := Page.persona_sender |} ])
  /\ Page.persona s' = Page.persona s
  /\ Page.isChatLoading s' = false
  /\ (exists body, Observed.to_chat_route issued = [body]
                   /\ Chat.message body = Page.inputMessage s).
Proof.
  intros Hinput Hactive Hidle.
  unfold Session.submitInput, Page.run, ChatBox.handleSendMessage.
  rewrite Hinput, Hactive, Hidle. cbn [negb orb].
  apply has_persona_inv in Hactive as (p & Hp & Ht).
  unfold Page.setInputMessage, Page.setMessages. run.
  match goal with
  | |- context [Home.handleSendMessage w ?m s ?store] =>
      destruct (handleSendMessage_from w m s store p Hp Ht)
        as (issued & Hposts & _ & Hset & _
            & [(text & _ & _ & ->) | (e & _ & ->)])
  end; run; rewrite ?app_nil_r; unfold Page.settle; rewrite Hset;
    unfold Page.sync_messages, Page.setMessages; run;
    cbn [Session.log_written Page.inputMessage Page.chatHistory
         Page.messages Page.persona Page.isChatLoading];
    rewrite map_app.
  - split; [reflexivity|]. split; [reflexivity|].
    split; [exists text; split; reflexivity|].
    split; [reflexivity|]. split; [reflexivity|].
    eexists. split; [exact Hposts|reflexivity].
  - split; [reflexivity|]. split; [reflexivity|].
    split; [exists Page.apology; split; reflexivity|].
    split; [reflexivity|]. split; [reflexivity|].
    eexists. split; [exact Hposts|reflexivity].
Qed.

Lemma chat_box_guard (w : Page.world) (s : Page.State) :
  negb (nonempty (trim (Page.inputMessage s)))
  || negb (Page.has_persona s) || Page.isChatLoading s = true ->
  Session.submitInput w s = (s, [], Returned tt).
Proof.
  intros H. unfold Session.submitInput, Page.run, ChatBox.handleSendMessage.
  now rewrite H.
Qed.



(** X17.  The keyboard cannot get round the send button: a key press
    does nothing while the button is disabled (input empty or all
    white space, or a turn in flight), nor with Shift held, nor for
    any key but Enter; Enter without Shift is the button's click. *)
Theorem keyboard_follows_button
    (w : Page.world) (key : jsstring) (shiftKey : bool) (s : Page.State) :
  (ChatBoxUI.send_disabled s = true \/ shiftKey = true
   \/ eqb key (str "Enter") = false ->
   Page.run (ChatBoxUI.handleKeyPress w key shiftKey) s = (s, [], Returned tt))
  /\ Page.run (ChatBoxUI.handleKeyPress w (str "Enter") false) s
     = Session.submitInput w s.
Proof.
  split; [|reflexivity].
  unfold Page.run, ChatBoxUI.handleKeyPress.
  intros [Hdisabled | [-> | ->]].
  - destruct (eqb key (str "Enter") && negb shiftKey); [|reflexivity].
    apply chat_box_guard. unfold ChatBoxUI.send_disabled in Hdisabled.
    apply orb_true_iff in Hdisabled as [-> | ->];
      [reflexivity|apply orb_true_r].
  - now rewrite andb_false_r.
  - reflexivity.
Qed.

End ChatBoxTurns.

(** ** A persona, then its first turn *)

(** X18.  The first turn after a persona was created starts from an
    empty history, whatever the log held before: with the route in
    reach and a provider call that does not fail, the provider gets
    the system prompt of the new persona and the new text (twice), and
    nothing of the conversation before; the log then holds this one
    exchange. *)
Theorem first_turn_after_persona {ops : NumberOps}
    (w1 w2 : Page.world) (s s1 : Page.State) (issued1 : list Page.event)
    (r1 : outcome unit) (v : json) (p : PersonaResult) (userText text : jsstring) :
  Session.createPersona w1 s = (s1, issued1, r1) ->
  Session.succeeded issued1 = true ->
  Page.persona s1 = Some v ->
  holds v p ->
  nonempty userText = true ->
  Page.online w2 = true ->
  Session.failed (Page.provider w2) = false ->
  Session.response_text (Page.provider w2) = Some text ->
  let '(s2, issued2, r2) := Session.submitTurn w2 userText s1 in
  r2 = Returned tt
  /\ Page.chatHistory s2
     = [Session.user_turn userText; Session.assistant_turn text]
  /\ Session.to_provider issued2
     = [ {| OpenRouter.Request.model := str "z-ai/glm-4.5-air:free";
            OpenRouter.Request.messages :=
              Spec.assembled p [Session.user_turn userText] userText;
            OpenRouter.Request.max_tokens := 500 |} ].
Proof.
  intros Hrun Hyes Hv Hholds Hm Hon Hu Htext.
  assert (Hlog : Page.chatHistory s1 = []).
  { destruct (createPersona_cases w1 s)
      as [(_ & issued' & Hno & Heq) | [(issued' & Hno & Heq) |
          (issued' & image & v' & _ & _ & _ & _ & Heq)]];
      rewrite Heq in Hrun; injection Hrun as <- <- <-; [congruence..|].
    reflexivity. }
  pose proof (holds_truthy v p Hholds) as Htruthy.
  pose proof (holds_transmitted v p Hholds) as Hwire.
  assert (Hpost :
            Chat.POST (Chat.request_json (Session.turn_body s1 v userText))
              (Page.provider w2)
            = ([ {| OpenRouter.Request.model := str "z-ai/glm-4.5-air:free";
                    OpenRouter.Request.messages :=
                      Spec.assembled p [Session.user_turn userText] userText;
                    OpenRouter.Request.max_tokens := 500 |} ],
               Chat.Success text)).
  { apply chat_on_text; auto.
    - exact (holds_truthy _ p Hwire).
    - cbn [Chat.request_json Session.turn_body Chat.persona Chat.chatHistory
           Chat.message].
      rewrite Hlog. now apply build_messages_record. }
  destruct (submitTurn_cases w2 userText s1 v Hv Htruthy)
    as (issued & Hsent & [(text' & _ & Hpost' & ->) | (e & [Hoff|Hfail] & _)]).
  - rewrite Hpost in Hpost'. injection Hpost' as <-.
    rewrite Hsent, Hon, Hpost. cbn [Session.with_log Page.chatHistory].
    rewrite Hlog. auto.
  - congruence.
  - destruct (Hfail text). now rewrite Hpost.
Qed.

(* ================================================================== *)
(** * Further concrete runs *)
(* ================================================================== *)

(** X3 at a payload inside a Markdown code fence. *)
Lemma persona_route_ignores_noise_run :
  let candidate := ch "{" :: Pebble.inner ++ [ch "}"] in
  present Rocky.key = true
  /\ occurs (ch "{") Pebble.fence_open = false
  /\ occurs (ch "}") Pebble.fence_close = false
  /\ candidate = Rocky.payload
  /\ GeneratePersona.POST (Some Rocky.photo) Rocky.key
       (Session.says (Pebble.fence_open ++ candidate ++ Pebble.fence_close))
     = GeneratePersona.POST (Some Rocky.photo) Rocky.key (Session.says candidate).
Proof.
  split; [reflexivity|]. split; [reflexivity|]. split; [reflexivity|].
  split; [vm_compute; reflexivity|].
  exact (persona_route_ignores_noise Rocky.photo Rocky.key
           Pebble.fence_open Pebble.inner Pebble.fence_close
           eq_refl eq_refl eq_refl).
Defined.

(** X4 at the provider text [{"name":"Rocky"}]. *)
Lemma success_persona_is_object_run :
  let v := JObject [ (str "name", JString (str "Rocky")) ] in
  snd (GeneratePersona.POST (Some Rocky.photo) Rocky.key (Session.says Rocky.partial))
  = GeneratePersona.Success v
  /\ exists members, v = JObject members.
Proof.
  assert (Hpost :
            snd (GeneratePersona.POST (Some Rocky.photo) Rocky.key
                   (Session.says Rocky.partial))
            = GeneratePersona.Success (JObject [ (str "name", JString (str "Rocky")) ]))
    by (vm_compute; reflexivity).
  split; [exact Hpost|].
  exact (success_persona_is_object (Some Rocky.photo) Rocky.key
           (Session.says Rocky.partial) _ Hpost).
Defined.

(** X6 at the provider text [{"name":"Rocky"}]: success is reported,
    and the page cannot be rendered. *)
Lemma accepted_persona_may_not_render_run :
  let w := Rocky.world_of true (Session.says Rocky.partial) in
  let run := Session.createPersona (ops := printed_literals) w Rocky.chatting in
  run = (fst (fst run), snd (fst run), snd run)
  /\ Session.succeeded (snd (fst run)) = true
  /\ Home.render (ops := printed_literals) (fst (fst run)) = Thrown TypeError.
Proof.
  split; [reflexivity|]. split; [reflexivity|].
  destruct (accepted_persona_may_not_render (ops := printed_literals)
              (Rocky.world_of true (Session.says Rocky.partial)) Rocky.chatting
              _ _ _ eq_refl eq_refl)
    as (text & candidate & v & Htext & Hmatch & Hparse & _ & Hthrows).
  apply Hthrows.
  vm_compute in Htext. injection Htext as <-.
  vm_compute in Hmatch. injection Hmatch as <-.
  vm_compute in Hparse. injection Hparse as <-.
  intros items. discriminate.
Defined.

(** X7 at a page with a persona and a log, and no network. *)
Lemma upload_then_failed_generation_run :
  let w := Rocky.world_of false OpenRouter.Unreachable in
  let uploaded :=
    fst (fst (Home.handleImageUpload (Some Rocky.photo) (str "data:image/jpeg;base64,AAAA")
                Rocky.chatting)) in
  eqb (firstn 6 (type Rocky.photo)) (str "image/") = true
  /\ Page.persona Rocky.chatting <> None
  /\ (let created := Session.createPersona (ops := printed_literals) w uploaded in
      Session.succeeded (snd (fst created)) = false
      /\ Page.persona (fst (fst created)) = None
      /\ Page.chatHistory (fst (fst created)) = []
      /\ Page.selectedImage (fst (fst created))
         = Some (str "data:image/jpeg;base64,AAAA")).
Proof.
  split; [reflexivity|]. split; [discriminate|]. split; [reflexivity|].
  exact (upload_then_failed_generation (ops := printed_literals) Rocky.photo (str "data:image/jpeg;base64,AAAA")
           (Rocky.world_of false OpenRouter.Unreachable) Rocky.chatting
           eq_refl eq_refl).
Defined.

(** X9 at a provider that answers "I sit.". *)
Lemma chat_success_carries_provider_text_run :
  let body := Session.turn_body Rocky.chatting (to_json Rocky.record) (str "hello") in
  let u := Session.says (str "I sit.") in
  snd (Chat.POST (ops := printed_literals) body u) = Chat.Success (str "I sit.")
  /\ Session.response_text u = Some (str "I sit.")
  /\ nonempty (str "I sit.") = true
  /\ Session.failed u = false
  /\ exists request, fst (Chat.POST (ops := printed_literals) body u) = [request].
Proof.
  assert (Hpost :
            snd (Chat.POST (ops := printed_literals)
                   (Session.turn_body Rocky.chatting (to_json Rocky.record) (str "hello"))
                   (Session.says (str "I sit.")))
            = Chat.Success (str "I sit."))
    by (vm_compute; reflexivity).
  split; [exact Hpost|].
  exact (chat_success_carries_provider_text (ops := printed_literals) _ _ _ Hpost).
Defined.

(** X10 at the persona with a name alone. *)
Lemma chat_route_needs_traits_run :
  let body := {| Chat.message := str "hello";
                 Chat.persona := JObject [ (str "name", JString (str "Rocky")) ];
                 Chat.chatHistory := Some [] |} in
  nonempty (Chat.message body) = true
  /\ truthy (ops := printed_literals) (Chat.persona body) = true
  /\ (forall items, get (Chat.persona body) (str "traits") <> Some (JArray items))
  /\ Chat.POST (ops := printed_literals) body (Session.says (str "I sit."))
     = ([], Chat.ServerError (str "Failed to generate response")).
Proof.
  intros body.
  assert (Htraits : forall items,
             get (Chat.persona body) (str "traits") <> Some (JArray items))
    by (intros items; discriminate).
  split; [reflexivity|]. split; [reflexivity|]. split; [exact Htraits|].
  exact (proj1 (chat_route_needs_traits (ops := printed_literals) body
                  (Session.says (str "I sit.")))
               eq_refl eq_refl Htraits).
Defined.

(** X11 at the Rocky record and a provider that answers "I sit.". *)
Lemma turn_succeeds_run :
  let w := Rocky.world_of true (Session.says (str "I sit.")) in
  Page.persona Rocky.chatting = Some (to_json Rocky.record)
  /\ holds (to_json Rocky.record) Rocky.record
  /\ nonempty (str "hello") = true
  /\ Page.online w = true
  /\ Session.failed (Page.provider w) = false
  /\ Session.response_text (Page.provider w) = Some (str "I sit.")
  /\ (let '(s', issued, r) :=
        Session.submitTurn (ops := printed_literals) w (str "hello") Rocky.chatting in
      r = Returned tt
      /\ s' = Session.with_log Rocky.chatting
                (Page.chatHistory Rocky.chatting
                 ++ [Session.user_turn (str "hello");
                     Session.assistant_turn (str "I sit.")])
      /\ Session.to_provider issued
         = [ {| OpenRouter.Request.model := str "z-ai/glm-4.5-air:free";
                OpenRouter.Request.messages :=
                  Spec.assembled Rocky.record
                    (Page.chatHistory Rocky.chatting
                     ++ [Session.user_turn (str "hello")]) (str "hello");
                OpenRouter.Request.max_tokens := 500 |} ]).
Proof.
  split; [reflexivity|]. split; [apply to_json_holds|].
  split; [reflexivity|]. split; [reflexivity|].
  split; [reflexivity|]. split; [reflexivity|].
  exact (turn_succeeds (ops := printed_literals)
           (Rocky.world_of true (Session.says (str "I sit."))) (str "hello")
           (str "I sit.") Rocky.chatting (to_json Rocky.record) Rocky.record
           eq_refl (to_json_holds Rocky.record) eq_refl eq_refl eq_refl eq_refl).
Defined.

(** X13 at a page without network. *)
Lemma turn_posts_once_run :
  let w := Rocky.world_of false OpenRouter.Unreachable in
  let issued :=
    snd (fst (Session.submitTurn (ops := printed_literals) w (str "hello")
                Rocky.chatting)) in
  Page.persona Rocky.chatting = Some (to_json Rocky.record)
  /\ truthy (ops := printed_literals) (to_json Rocky.record) = true
  /\ Observed.to_chat_route issued
     = [ {| Chat.message := str "hello";
            Chat.persona := to_json Rocky.record;
            Chat.chatHistory :=
              Some (Page.chatHistory Rocky.chatting
                    ++ [ {| Chat.role := Chat.user; Chat.content := str "hello" |} ]) |} ]
  /\ (List.length (Session.to_provider issued) <= 1)%nat
  /\ Observed.toasts issued = [].
Proof.
  split; [reflexivity|]. split; [reflexivity|].
  exact (turn_posts_once (ops := printed_literals)
           (Rocky.world_of false OpenRouter.Unreachable) (str "hello")
           Rocky.chatting (to_json Rocky.record) eq_refl eq_refl).
Defined.

(** X14 at a turn that succeeds followed by one that fails. *)
Lemma replies_stay_nonempty_run :
  let turns :=
    [ (Rocky.world_of true (Session.says (str "I sit.")), str "hello");
      (Rocky.world_of false OpenRouter.Unreachable, str "still there?") ] in
  Observed.replies_nonempty (Page.chatHistory Rocky.chatting) = true
  /\ Observed.replies_nonempty
       (Page.chatHistory
          (Session.submitTurns (ops := printed_literals) turns Rocky.chatting))
     = true.
Proof.
  split; [reflexivity|].
  exact (replies_stay_nonempty (ops := printed_literals)
           [ (Rocky.world_of true (Session.says (str "I sit.")), str "hello");
             (Rocky.world_of false OpenRouter.Unreachable, str "still there?") ]
           Rocky.chatting eq_refl).
Defined.

(** X15 at an input with spaces at both ends. *)
Lemma chat_box_sends_input_as_typed_run :
  let w := Rocky.world_of true (Session.says (str "I sit.")) in
  nonempty (trim (Page.inputMessage Pebble.typing)) = true
  /\ Page.has_persona (ops := printed_literals) Pebble.typing = true
  /\ Page.isChatLoading Pebble.typing = false
  /\ Page.inputMessage Pebble.typing = str "  hello "
  /\ (let '(s', issued, r) :=
        Session.submitInput (ops := printed_literals) w Pebble.typing in
      r = Returned tt
      /\ Page.inputMessage s' = []
      /\ (exists reply,
             Page.chatHistory s'
             = Page.chatHistory Pebble.typing
               ++ [ {| Chat.role := Chat.user;
                       Chat.content := Page.inputMessage Pebble.typing |};
                    {| Chat.role := Chat.assistant; Chat.content := reply |} ]
             /\ Page.messages s'
                = map Page.bubble_of (Page.chatHistory Pebble.typing)
                  ++ [ {| Page.text := Page.inputMessage Pebble.typing;
                          Page.sender := Page.user |};
                       {| Page.text := reply;
                          Page.sender := Page.persona_sender |} ])
      /\ Page.persona s' = Page.persona Pebble.typing
      /\ Page.isChatLoading s' = false
      /\ (exists body, Observed.to_chat_route issued = [body]
                       /\ Chat.message body = Page.inputMessage Pebble.typing)).
Proof.
  split; [reflexivity|]. split; [reflexivity|].
  split; [reflexivity|]. split; [reflexivity|].
  exact (chat_box_sends_input_as_typed (ops := printed_literals)
           (Rocky.world_of true (Session.says (str "I sit."))) Pebble.typing
           eq_refl eq_refl eq_refl).
Defined.

(** X18 at the Rocky payload, on a page that had a log. *)
Lemma first_turn_after_persona_run :
  let w1 := Rocky.world_of true (Session.says Rocky.payload) in
  let w2 := Rocky.world_of true (Session.says (str "I sit.")) in
  let created := Session.createPersona (ops := printed_literals) w1 Rocky.chatting in
  created = (fst (fst created), snd (fst created), snd created)
  /\ Session.succeeded (snd (fst created)) = true
  /\ Page.persona (fst (fst created)) = Some (to_json Rocky.record)
  /\ holds (to_json Rocky.record) Rocky.record
  /\ Page.chatHistory Rocky.chatting <> []
  /\ (let '(s2, issued2, r2) :=
        Session.submitTurn (ops := printed_literals) w2 (str "hello")
          (fst (fst created)) in
      r2 = Returned tt
      /\ Page.chatHistory s2
         = [Session.user_turn (str "hello"); Session.assistant_turn (str "I sit.")]
      /\ Session.to_provider issued2
         = [ {| OpenRouter.Request.model := str "z-ai/glm-4.5-air:free";
                OpenRouter.Request.messages :=
                  Spec.assembled Rocky.record [Session.user_turn (str "hello")]
                    (str "hello");
                OpenRouter.Request.max_tokens := 500 |} ]).
Proof.
  split; [reflexivity|]. split; [reflexivity|]. split; [reflexivity|].
  split; [apply to_json_holds|]. split; [discriminate|].
  exact (first_turn_after_persona (ops := printed_literals)
           (Rocky.world_of true (Session.says Rocky.payload))
           (Rocky.world_of true (Session.says (str "I sit.")))
           Rocky.chatting _ _ _ (to_json Rocky.record) Rocky.record
           (str "hello") (str "I sit.")
           eq_refl eq_refl eq_refl (to_json_holds Rocky.record)
           eq_refl eq_refl eq_refl eq_refl).
Defined.
